(** * NanoVNA driver (pymeasure/instruments/nanovna/nanovna.py)

    A shallow embedding of the echo-scrubbing serial adapter
    [SerialAdapterWithEcho] and of the [NanoVNA] instrument class, with the
    properties of the driver's specification stated over it.

    Conventions.
    - A Python [str] is a [string]; text outside ASCII is carried by its
      UTF-8 bytes.  The driver only searches for ASCII patterns, and a match
      of an ASCII pattern in UTF-8 text always starts and ends on code point
      boundaries, so [replace], [split] and [join] act on this representation
      as they do on code points.
    - [bytes] are [list byte].
    - An exception is an [Err] result; the channel is threaded explicitly. *)

From Stdlib Require Import Strings.String Strings.Ascii Strings.Byte.
From Stdlib Require Import List ZArith Lia Bool.
From Stdlib Require Import SpecFloat Numbers.DecimalString.
Import ListNotations.
Open Scope string_scope.

(* ================================================================== *)
(** ** Python string operations *)

Module Str.

Definition CR : ascii := "013"%char.
Definition LF : ascii := "010"%char.

(** ['\r\n'] *)
Definition CRLF : string := String CR (String LF EmptyString).

(** [s.startswith(p)] *)
Fixpoint startswith (s p : string) {struct p} : bool :=
  match p with
  | EmptyString => true
  | String a p' =>
      match s with
      | EmptyString => false
      | String b s' => Ascii.eqb a b && startswith s' p'
      end
  end.

(** [p in s] *)
Fixpoint contains (p s : string) : bool :=
  startswith s p ||
  match s with
  | EmptyString => false
  | String _ s' => contains p s'
  end.

(** The scan of [s.replace(old, new)] for a non-empty [old]: left to
    right, each match is replaced and the scan resumes after it, so
    matches never overlap and the replacement is not scanned again.
    [skip] counts the characters of a match still to be passed over. *)
Fixpoint replace_from (old new : string) (skip : nat) (s : string) : string :=
  match s with
  | EmptyString => EmptyString
  | String c s' =>
      match skip with
      | S k => replace_from old new k s'
      | O =>
          if startswith s old
          then new ++ replace_from old new (String.length old - 1) s'
          else String c (replace_from old new 0 s')
      end
  end.

(** [s.replace("", new)]: [new] goes before every character and at the
    end. *)
Fixpoint replace_empty (new s : string) : string :=
  match s with
  | EmptyString => new
  | String c s' => new ++ String c (replace_empty new s')
  end.

(** [s.replace(old, new)] *)
Definition replace (s old new : string) : string :=
  match old with
  | EmptyString => replace_empty new s
  | String _ _ => replace_from old new 0 s
  end.

(** The scan of [s.split(sep)] for a non-empty [sep]: the segments between
    the non-overlapping matches of [sep], found left to right.  There is
    always at least one segment. *)
Fixpoint split_from (sep : string) (skip : nat) (s : string) : list string :=
  match s with
  | EmptyString => [EmptyString]
  | String c s' =>
      match skip with
      | S k => split_from sep k s'
      | O =>
          if startswith s sep
          then EmptyString :: split_from sep (String.length sep - 1) s'
          else match split_from sep 0 s' with
               | seg :: rest => String c seg :: rest
               | [] => [String c EmptyString]
               end
      end
  end.

(** [s.split(sep)]; [None] is Python's [ValueError: empty separator]. *)
Definition split (s sep : string) : option (list string) :=
  match sep with
  | EmptyString => None
  | String _ _ => Some (split_from sep 0 s)
  end.

(** [c in p] for a single character [c] *)
Fixpoint mem (c : ascii) (p : string) : bool :=
  match p with
  | EmptyString => false
  | String a p' => Ascii.eqb a c || mem c p'
  end.

(** [sep.join(parts)] *)
Definition join (sep : string) (parts : list string) : string :=
  String.concat sep parts.

End Str.

(* ================================================================== *)
(** ** Exceptions *)

(** The exceptions the driver can let escape.  [ValueError] is what numpy
    raises both for a token that is no number and for operands whose shapes
    cannot be broadcast together. *)
Inductive exn : Type :=
| UnicodeDecodeError
| ValueError
| TimeoutError
| ValidationError.

Inductive result (A : Type) : Type :=
| Ok (a : A)
| Err (e : exn).

Arguments Ok {A} a.
Arguments Err {A} e.

Definition is_ok {A} (r : result A) : bool :=
  match r with Ok _ => true | Err _ => false end.

(* ================================================================== *)
(** ** [bytes.decode()] *)

Module Codec.

Definition between (lo hi : N) (b : byte) : bool :=
  ((lo <=? Byte.to_N b) && (Byte.to_N b <=? hi))%N.

Definition continuation : byte -> bool := between 0x80 0xBF.

(** Second byte of a three-byte sequence, by its lead byte: no overlong
    forms after [E0], no surrogates after [ED]. *)
Definition second_of_3 (b0 b1 : byte) : bool :=
  if between 0xE0 0xE0 b0 then between 0xA0 0xBF b1
  else if between 0xED 0xED b0 then between 0x80 0x9F b1
  else continuation b1.

(** Second byte of a four-byte sequence: no overlong forms after [F0],
    nothing above U+10FFFF after [F4]. *)
Definition second_of_4 (b0 b1 : byte) : bool :=
  if between 0xF0 0xF0 b0 then between 0x90 0xBF b1
  else if between 0xF4 0xF4 b0 then between 0x80 0x8F b1
  else continuation b1.

(** Well-formed UTF-8, as the strict codec accepts it. *)
Fixpoint utf8_valid (bs : list byte) : bool :=
  match bs with
  | [] => true
  | b0 :: r0 =>
      if between 0x00 0x7F b0 then utf8_valid r0
      else
        match r0 with
        | [] => false
        | b1 :: r1 =>
            if between 0xC2 0xDF b0 then continuation b1 && utf8_valid r1
            else
              match r1 with
              | [] => false
              | b2 :: r2 =>
                  if between 0xE0 0xEF b0
                  then second_of_3 b0 b1 && continuation b2 && utf8_valid r2
                  else
                    match r2 with
                    | [] => false
                    | b3 :: r3 =>
                        between 0xF0 0xF4 b0 && second_of_4 b0 b1
                        && continuation b2 && continuation b3
                        && utf8_valid r3
                    end
              end
        end
  end.

(** [raw.decode()]: the default codec is UTF-8 with strict errors. *)
Definition decode (raw : list byte) : result string :=
  if utf8_valid raw then Ok (string_of_list_byte raw)
  else Err UnicodeDecodeError.

End Codec.

(* ================================================================== *)
(** ** numpy: float64 and complex128 arrays of one dimension *)

Module Np.

(** IEEE 754 binary64. *)
Definition float64 : Type := spec_float.
Definition prec : Z := 53.
Definition emax : Z := 1024.

Definition fadd : float64 -> float64 -> float64 := SFadd prec emax.
Definition fsub : float64 -> float64 -> float64 := SFsub prec emax.
Definition fmul : float64 -> float64 -> float64 := SFmul prec emax.
Definition fzero : float64 := S754_zero false.
Definition fone : float64 := SFone prec emax.

Record complex128 : Type := Complex { real : float64; imag : float64 }.

(** Promotion of a float64 to complex128. *)
Definition of_float (x : float64) : complex128 := Complex x fzero.

Definition cadd (a b : complex128) : complex128 :=
  Complex (fadd (real a) (real b)) (fadd (imag a) (imag b)).

Definition cmul (a b : complex128) : complex128 :=
  Complex (fsub (fmul (real a) (real b)) (fmul (imag a) (imag b)))
          (fadd (fmul (real a) (imag b)) (fmul (imag a) (real b))).

(** The Python literal [1j]. *)
Definition j : complex128 := Complex fzero fone.

(** [array(tokens, dtype=float)]: every token goes through the
    string-to-float conversion [conv]; the first token it rejects raises
    [ValueError]. *)
Fixpoint array_float (conv : string -> option float64) (tokens : list string)
  : result (list float64) :=
  match tokens with
  | [] => Ok []
  | t :: rest =>
      match conv t with
      | None => Err ValueError
      | Some x =>
          match array_float conv rest with
          | Ok xs => Ok (x :: xs)
          | Err e => Err e
          end
      end
  end.

(** [a[::2]] *)
Fixpoint every_other {A} (a : list A) : list A :=
  match a with
  | [] => []
  | [x] => [x]
  | x :: _ :: rest => x :: every_other rest
  end.

(** [a[1::2]] *)
Definition every_other_from_1 {A} (a : list A) : list A :=
  every_other (tl a).

(** [a * 1j] for a float64 array [a]: the array is promoted to
    complex128 and multiplied element by element. *)
Definition times_1j (a : list float64) : list complex128 :=
  map (fun x => cmul (of_float x) j) a.

(** Element-wise pairing of two one-dimensional operands. *)
Fixpoint zip_with {A B C} (f : A -> B -> C) (a : list A) (b : list B) : list C :=
  match a, b with
  | x :: a', y :: b' => f x y :: zip_with f a' b'
  | _, _ => []
  end.

(** A binary ufunc on one-dimensional operands with numpy's
    broadcasting: equal lengths pair up, an operand of length 1 is
    stretched to the other's length (also to length 0), every other
    combination raises [ValueError]. *)
Definition broadcast {A B C} (f : A -> B -> C) (a : list A) (b : list B)
  : result (list C) :=
  if Nat.eqb (List.length a) (List.length b) then Ok (zip_with f a b)
  else
    match a, b with
    | [x], _ => Ok (map (f x) b)
    | _, [y] => Ok (map (fun x => f x y) a)
    | _, _ => Err ValueError
    end.

(** [a + b] for a float64 array [a] and a complex128 array [b]. *)
Definition add_float_complex (a : list float64) (b : list complex128)
  : result (list complex128) :=
  broadcast (fun x z => cadd (of_float x) z) a b.

End Np.

(* ================================================================== *)
(** ** The serial channel and the instrument's operations *)

(** What the next raw read of the channel finds. *)
Inductive arrival : Type :=
| Frame (raw : list byte)   (* bytes up to the break condition *)
| Silence.                  (* nothing before the timeout *)

(** [sent]: the command lines written so far, oldest first, each with its
    write termination.  [incoming]: what the device will answer, one
    arrival per raw read. *)
Record channel : Type := Channel {
  sent : list string;
  incoming : list arrival
}.

(** An operation on the instrument: it runs on a channel, returns or
    raises, and leaves the channel as it is then. *)
Definition M (A : Type) : Type := channel -> result A * channel.

Definition ret {A} (a : A) : M A := fun ch => (Ok a, ch).

Definition bind {A B} (m : M A) (k : A -> M B) : M B :=
  fun ch =>
    match m ch with
    | (Ok a, ch') => k a ch'
    | (Err e, ch') => (Err e, ch')
    end.

Definition lift {A} (r : result A) : M A := fun ch => (r, ch).

Declare Scope vna_scope.
Delimit Scope vna_scope with vna.
Notation "x <- m ;; k" := (bind m (fun x => k))
  (at level 61, m at next level, right associativity) : vna_scope.
Notation "m ;;; k" := (bind m (fun _ => k))
  (at level 61, right associativity) : vna_scope.
Open Scope vna_scope.

Module SerialAdapterWithEcho.
Import Str.

Definition echo_termination : string := CRLF.
Definition write_termination : string := String CR EmptyString.
Definition prompt : string := "ch> ".

(** Modelled from the spec: [SerialAdapter._read_bytes] is not part of
    this file.  A raw read returns the bytes that arrived up to the break
    condition, and fails with [TimeoutError] when nothing arrives. *)
Definition _read_bytes : M (list byte) :=
  fun ch =>
    match incoming ch with
    | Frame raw :: rest => (Ok raw, Channel (sent ch) rest)
    | Silence :: rest => (Err TimeoutError, Channel (sent ch) rest)
    | [] => (Err TimeoutError, ch)
    end.

(** Modelled from the spec: the adapter's [write] is not part of this
    file.  It appends the write termination and sends the line. *)
Definition write (command : string) : M unit :=
  fun ch =>
    (Ok tt, Channel (sent ch ++ [command ++ write_termination]) (incoming ch)).

(** [read[1:-1]] *)
Definition drop_first_and_last {A} (read : list A) : list A :=
  skipn 1 (firstn (List.length read - 1) read).

(** Lines 44 to 48 of [_read_echo], on the decoded text. *)
Definition scrub (read : string) : result string :=
  match split (replace read prompt "") echo_termination with
  | None => Err ValueError
  | Some read =>
      let reply := drop_first_and_last read in
      Ok (join "," reply)
  end.

Definition _read_echo : M string :=
  raw <- _read_bytes ;;
  read <- lift (Codec.decode raw) ;;
  lift (scrub read).

End SerialAdapterWithEcho.

Module NanoVNA.
Import Str Np.

Definition read : M string := SerialAdapterWithEcho._read_echo.

Definition write (command : string) : M unit :=
  SerialAdapterWithEcho.write command.

(** [wait_for(query_delay)] only lets time pass. *)
Definition wait_for : M unit := ret tt.

Definition ask (command : string) : M string :=
  write command ;;;
  wait_for ;;;
  SerialAdapterWithEcho._read_echo.

Section Parsing.

(** The conversion numpy applies to one token of a string array cast to
    float.  It belongs to numpy and CPython, not to this driver. *)
Variable float_of_str : string -> option float64.

Definition _process_frequencies (freqs : string) : result (list float64) :=
  match split freqs "," with
  | None => Err ValueError
  | Some tokens => array_float float_of_str tokens
  end.

Definition get_frequencies : M (list float64) :=
  freqs <- ask "frequencies" ;;
  lift (_process_frequencies freqs).

Definition _process_data (data : string) : result (list complex128) :=
  match split (replace data " " ",") "," with
  | None => Err ValueError
  | Some tokens =>
      match array_float float_of_str tokens with
      | Err e => Err e
      | Ok data => add_float_complex (every_other data)
                                     (times_1j (every_other_from_1 data))
      end
  end.

Definition get_S11_data : M (list complex128) :=
  data <- ask "data 0" ;;
  lift (_process_data data).

Definition get_S21_data : M (list complex128) :=
  data <- ask "data 1" ;;
  lift (_process_data data).

(** The returned dict, as its items in insertion order. *)
Definition get_cals : M (list (string * list complex128)) :=
  cal_load <- (data <- ask "data 2" ;; lift (_process_data data)) ;;
  cal_open <- (data <- ask "data 3" ;; lift (_process_data data)) ;;
  cal_short <- (data <- ask "data 4" ;; lift (_process_data data)) ;;
  cal_thru <- (data <- ask "data 5" ;; lift (_process_data data)) ;;
  cal_isoln <- (data <- ask "data 6" ;; lift (_process_data data)) ;;
  ret [("load", cal_load); ("open", cal_open); ("short", cal_short);
       ("thru", cal_thru); ("isoln", cal_isoln)].

End Parsing.

(** ['%d' % value] for an [int] *)
Definition format_d (value : Z) : string :=
  NilZero.string_of_int (Z.to_int value).

(** Modelled from the spec: the validator [strict_discrete_set] lives in
    [pymeasure.instruments.validators], not in this file.  A value in the
    set passes unchanged, any other value fails with [ValidationError]. *)
Definition strict_discrete_set (value : Z) (values : list Z) : result Z :=
  if existsb (Z.eqb value) values then Ok value else Err ValidationError.

Definition power_values : list Z := [-1; 0; 1; 2; 3]%Z.

(** Modelled from the spec: the setter that [Instrument.setting] builds
    is not in this file.  It validates the value and only then writes
    the formatted command ['power %d']. *)
Definition power_fset (value : Z) : M unit :=
  value <- lift (strict_discrete_set value power_values) ;;
  write ("power " ++ format_d value).

End NanoVNA.

(* ================================================================== *)
(** ** Decimal literals *)

(** A string-to-float conversion for the plain decimal literals the device
    prints: [[sign] digits [. digits] [e [sign] digits]], correctly
    rounded to binary64.  It instantiates the conversion parameter of
    [NanoVNA] wherever a reply is evaluated. *)
Module Literal.
Import Np.

Definition digit (c : ascii) : option Z :=
  let n := N_of_ascii c in
  if ((48 <=? n) && (n <=? 57))%N then Some (Z.of_N n - 48)%Z else None.

(** The longest run of digits at the head of [s]: its value on top of
    [acc], the count of digits on top of [n], and what follows. *)
Fixpoint digits (acc n : Z) (s : string) : Z * Z * string :=
  match s with
  | EmptyString => (acc, n, s)
  | String c s' =>
      match digit c with
      | Some d => digits (10 * acc + d)%Z (n + 1)%Z s'
      | None => (acc, n, s)
      end
  end.

Definition sign (s : string) : bool * string :=
  match s with
  | String "-" s' => (true, s')
  | String "+" s' => (false, s')
  | _ => (false, s)
  end.

(** The binary64 nearest to [(-1)^neg * m * 10^e], ties to even.  For a
    negative [e] the quotient keeps at least 64 bits and a sticky bit. *)
Definition scale (neg : bool) (m e : Z) : float64 :=
  if (m =? 0)%Z then S754_zero neg
  else if (0 <=? e)%Z
  then binary_normalize prec emax (cond_Zopp neg (m * 10 ^ e)) 0 false
  else
    let d := (10 ^ (- e))%Z in
    let k := (64 + Z.log2 d)%Z in
    let n := (m * 2 ^ k)%Z in
    let sticky := if (n mod d =? 0)%Z then 0%Z else 1%Z in
    binary_normalize prec emax (cond_Zopp neg (2 * (n / d) + sticky))
                     (- (k + 1)) false.

Definition float_of_str (s : string) : option float64 :=
  let (neg, s1) := sign s in
  let '(ip, ni, s2) := digits 0 0 s1 in
  let '(m, nf, s3) :=
    match s2 with
    | String "." s2' => digits ip 0 s2'
    | _ => (ip, 0%Z, s2)
    end in
  if (ni + nf =? 0)%Z then None
  else
    match s3 with
    | EmptyString => Some (scale neg m (- nf))
    | String c s4 =>
        if (Ascii.eqb c "e" || Ascii.eqb c "E")%bool
        then
          let (eneg, s5) := sign s4 in
          let '(ev, ne, s6) := digits 0 0 s5 in
          if (ne =? 0)%Z then None
          else
            match s6 with
            | EmptyString => Some (scale neg m (cond_Zopp eneg ev - nf))
            | String _ _ => None
            end
        else None
    end.

End Literal.

(* ================================================================== *)
(** ** Notions the properties are stated with *)

Module Wire.
Import Str.

(** The text of a raw frame, as the device sends it: the echo of the
    command, the reply lines, each closed by the echo termination, and
    the prompt.  ["<cmd>\r\n<line1>\r\n...<lineN>\r\nch> "] *)
Definition frame_text (cmd : string) (lines : list string) : string :=
  cmd ++ CRLF ++
  fold_right (fun line rest => line ++ CRLF ++ rest)
             SerialAdapterWithEcho.prompt lines.

(** A piece of text with neither the echo termination nor the prompt
    marker inside. *)
Definition plain (s : string) : bool :=
  negb (contains CRLF s) && negb (contains SerialAdapterWithEcho.prompt s).

(** One sub-request of [get_cals]: ask, then decode the reply. *)
Definition request (conv : string -> option Np.float64) (command : string)
  : M (list Np.complex128) :=
  data <- NanoVNA.ask command ;;
  lift (NanoVNA._process_data conv data).

(** The requests of [get_cals] and the keys of its result, in order. *)
Definition cal_commands : list string :=
  ["data 2"; "data 3"; "data 4"; "data 5"; "data 6"].

Definition cal_keys : list string :=
  ["load"; "open"; "short"; "thru"; "isoln"].

(** [served conv commands ch values ch']: starting on [ch], the requests
    [commands], issued one after the other, all succeed; [values] are their
    decoded replies in order and [ch'] is the channel afterwards. *)
Inductive served (conv : string -> option Np.float64)
  : list string -> channel -> list (list Np.complex128) -> channel -> Prop :=
| served_none : forall ch, served conv [] ch [] ch
| served_next : forall command commands ch value ch1 values ch2,
    request conv command ch = (Ok value, ch1) ->
    served conv commands ch1 values ch2 ->
    served conv (command :: commands) ch (value :: values) ch2.

(** The same as a function: the requests run in order and the first
    failure ends the run. *)
Fixpoint requests (conv : string -> option Np.float64) (commands : list string)
  : M (list (list Np.complex128)) :=
  match commands with
  | [] => ret []
  | command :: commands' =>
      value <- request conv command ;;
      values <- requests conv commands' ;;
      ret (value :: values)
  end.

(** A command line as it goes out on the channel. *)
Definition line (command : string) : string :=
  command ++ SerialAdapterWithEcho.write_termination.

End Wire.

(* ================================================================== *)
(** ** Notions on replies *)

Module Reply.
Import Str.

(** [data.replace(" ", ",").split(",")]: the tokens [_process_data]
    converts. *)
Definition tokens (data : string) : list string :=
  split_from "," 0 (replace_from " " "," 0 data).

(** [s.count(c)] for a single character [c] *)
Fixpoint count (c : ascii) (s : string) : nat :=
  match s with
  | EmptyString => 0
  | String a s' => (if Ascii.eqb c a then 1 else 0) + count c s'
  end.

(** [s.replace('ch> ', "")] *)
Definition strip_prompt (s : string) : string :=
  replace s SerialAdapterWithEcho.prompt "".

(** A piece of text that has no ["\r\n"] once the prompt is removed. *)
Definition one_segment (s : string) : bool :=
  negb (contains CRLF (strip_prompt s)).

(** The two delimiters of [_process_data]. *)
Definition delimiter (d : ascii) : bool :=
  Ascii.eqb d " " || Ascii.eqb d ",".

(** [data[::2] + data[1::2] * 1j] when the two slices pair up. *)
Definition paired (data : list Np.float64) : list Np.complex128 :=
  Np.zip_with (fun x z => Np.cadd (Np.of_float x) z)
              (Np.every_other data)
              (Np.times_1j (Np.every_other_from_1 data)).

(** A line that decodes on its own, from an even number of tokens. *)
Definition line_decodes (conv : string -> option Np.float64)
  (line : string) (result : list Np.complex128) : Prop :=
  Nat.even (List.length (tokens line)) = true
  /\ NanoVNA._process_data conv line = Ok result.

End Reply.

(* ================================================================== *)
(** ** Lemmas on the string operations *)

Module StrFacts.
Import Str.

Lemma startswith_app p t : startswith (p ++ t) p = true.
Proof.
  induction p as [|a p IH]; simpl; [reflexivity|].
  now rewrite Ascii.eqb_refl.
Qed.

Lemma contains_cons_false p c s :
  contains p (String c s) = false ->
  startswith (String c s) p = false /\ contains p s = false.
Proof. cbn [contains]. intros H. apply orb_false_iff in H. exact H. Qed.

(** A match of [p] at the head of [s ++ t] lies inside [s], or it reaches
    the first character of [t]. *)
Lemma startswith_app_inv s : forall p c t,
  startswith (s ++ String c t) p = true ->
  startswith s p = true \/ mem c p = true.
Proof.
  induction s as [|b s IH]; intros p c t H.
  - destruct p as [|a p]; [now left|]. right.
    simpl in H. apply andb_true_iff in H as [H _]. simpl. now rewrite H.
  - destruct p as [|a p]; [now left|].
    simpl in H. apply andb_true_iff in H as [Hab H].
    destruct (IH _ _ _ H) as [Hs|Hm].
    + left. simpl. now rewrite Hab, Hs.
    + right. simpl. rewrite Hm. apply orb_true_r.
Qed.

Lemma split_from_not_nil sep : forall s k, split_from sep k s <> [].
Proof.
  induction s as [|c s IH]; intros k; [easy|].
  destruct k; [|apply IH]. cbn [split_from].
  destruct (startswith (String c s) sep); [easy|].
  destruct (split_from sep 0 s); easy.
Qed.

Lemma split_from_skip sep : forall p t,
  split_from sep (String.length p) (p ++ t) = split_from sep 0 t.
Proof. induction p as [|a p IH]; intros t; simpl; [reflexivity|apply IH]. Qed.

Lemma replace_from_skip old new : forall p t,
  replace_from old new (String.length p) (p ++ t) = replace_from old new 0 t.
Proof. induction p as [|a p IH]; intros t; simpl; [reflexivity|apply IH]. Qed.

(** A text without the separator is a single segment. *)
Lemma split_from_absent sep : forall s,
  contains sep s = false -> split_from sep 0 s = [s].
Proof.
  induction s as [|c s IH]; intros H; [reflexivity|].
  apply contains_cons_false in H as [Hh Ht].
  cbn [split_from]. rewrite Hh, (IH Ht). reflexivity.
Qed.

(** Conversely a text with the separator has at least two segments. *)
Lemma split_from_present sep : forall s,
  sep <> "" -> contains sep s = true -> 2 <= List.length (split_from sep 0 s).
Proof.
  intros s Hsep. induction s as [|c s IH]; intros H.
  - destruct sep; [congruence|discriminate].
  - cbn [split_from]. destruct (startswith (String c s) sep) eqn:Hh.
    + pose proof (split_from_not_nil sep s (String.length sep - 1)) as Hn.
      destruct (split_from sep (String.length sep - 1) s); [congruence|simpl; lia].
    + cbn [contains] in H. rewrite Hh in H. cbn [orb] in H. specialize (IH H).
      destruct (split_from sep 0 s); simpl in *; lia.
Qed.

(** Fewer than two segments means that the separator does not occur. *)
Lemma split_from_single_iff sep s :
  sep <> "" ->
  (List.length (split_from sep 0 s) < 2 <-> contains sep s = false).
Proof.
  intros Hsep. split.
  - intros Hlen. destruct (contains sep s) eqn:E; [|reflexivity].
    pose proof (split_from_present sep s Hsep E). lia.
  - intros E. rewrite (split_from_absent sep s E). simpl. lia.
Qed.

(** *** The echo termination *)

(** A segment without ['\r\n'] followed by ['\r\n'] is cut off exactly at
    that separator: no match can start inside the segment. *)
Lemma split_from_segment : forall s t,
  contains CRLF s = false ->
  split_from CRLF 0 (s ++ CRLF ++ t) = s :: split_from CRLF 0 t.
Proof.
  induction s as [|c s IH]; intros t H.
  - reflexivity.
  - apply contains_cons_false in H as [Hh Ht].
    change ((String c s ++ CRLF ++ t)%string) with (String c (s ++ CRLF ++ t)).
    cbn [split_from].
    assert (Hno : startswith (String c (s ++ CRLF ++ t)) CRLF = false).
    { cbn [startswith CRLF] in Hh |- *.
      destruct (Ascii.eqb CR c); [|reflexivity]. cbn [andb] in Hh |- *.
      destruct s as [|d s']; [reflexivity|]. exact Hh. }
    rewrite Hno, (IH t Ht). reflexivity.
Qed.

(** *** The prompt marker *)

Lemma replace_from_segment old : forall s c t,
  mem c old = false ->
  contains old s = false ->
  replace_from old "" 0 (s ++ String c t) = s ++ replace_from old "" 0 (String c t).
Proof.
  intros s c t Hc. induction s as [|b s IH]; intros H; [reflexivity|].
  apply contains_cons_false in H as [Hh Ht].
  change ((String b s ++ String c t)%string) with (String b (s ++ String c t)).
  cbn [replace_from].
  destruct (startswith (String b (s ++ String c t)) old) eqn:E.
  - apply (startswith_app_inv (String b s)) in E. destruct E; congruence.
  - rewrite (IH Ht). reflexivity.
Qed.

(** *** Replacing one character by another *)

Lemma replace_char_idem (a b : ascii) : forall s,
  Ascii.eqb a b = false ->
  replace (replace s (String a "") (String b "")) (String a "") (String b "")
  = replace s (String a "") (String b "").
Proof.
  intros s Hab. unfold replace.
  induction s as [|c s IH]; [reflexivity|].
  cbn [replace_from startswith String.length Nat.sub].
  destruct (Ascii.eqb a c) eqn:E; cbn [andb append].
  - cbn [replace_from startswith]. rewrite Hab. cbn [andb]. now rewrite IH.
  - cbn [replace_from startswith]. rewrite E. cbn [andb]. now rewrite IH.
Qed.

End StrFacts.


(* ================================================================== *)
(** ** The echo scrubber *)

Module ScrubFacts.
Import Str StrFacts Wire SerialAdapterWithEcho.

Lemma drop_first_and_last_middle {A} (x y : A) (l : list A) :
  drop_first_and_last (x :: (l ++ [y])%list) = l.
Proof.
  unfold drop_first_and_last.
  replace (List.length (x :: (l ++ [y])%list) - 1) with (S (List.length l))
    by (cbn [List.length]; rewrite length_app; simpl; lia).
  cbn [firstn app skipn].
  rewrite firstn_app, firstn_all, Nat.sub_diag. cbn [firstn]. apply app_nil_r.
Qed.

Lemma drop_first_and_last_short {A} (l : list A) :
  List.length l < 2 -> drop_first_and_last l = [].
Proof.
  destruct l as [|x [|y l]]; cbn [List.length]; intros H;
    [reflexivity|reflexivity|lia].
Qed.

(** One raw read that finds a frame: the frame is consumed, decoded and
    scrubbed; nothing is written. *)
Lemma read_echo_frame sent0 raw rest :
  _read_echo (Channel sent0 (Frame raw :: rest)) =
  (match Codec.decode raw with
   | Ok read => scrub read
   | Err e => Err e
   end, Channel sent0 rest).
Proof.
  unfold _read_echo, bind, _read_bytes, lift. cbn [incoming sent].
  destruct (Codec.decode raw); reflexivity.
Qed.

Lemma scrub_eq read :
  scrub read =
  Ok (join "," (drop_first_and_last (split_from CRLF 0 (replace_from prompt "" 0 read)))).
Proof. reflexivity. Qed.

Lemma plain_inv s :
  plain s = true -> contains CRLF s = false /\ contains prompt s = false.
Proof.
  unfold plain. intros H. apply andb_true_iff in H as [H1 H2].
  split; [destruct (contains CRLF s)|destruct (contains prompt s)];
    (reflexivity || discriminate).
Qed.

(** Removing the prompt from the lines of a frame leaves the lines and
    their terminations untouched and deletes the closing prompt. *)
Lemma replace_prompt_lines : forall lines,
  forallb plain lines = true ->
  replace_from prompt "" 0
    (fold_right (fun line rest => line ++ CRLF ++ rest) prompt lines)
  = fold_right (fun line rest => line ++ CRLF ++ rest) "" lines.
Proof.
  induction lines as [|l lines IH]; intros H; [reflexivity|].
  cbn [forallb] in H. apply andb_true_iff in H as [Hl Hls].
  apply plain_inv in Hl as [_ Hl].
  cbn [fold_right].
  change (CRLF ++ ?r)%string with (String CR (String LF r)).
  rewrite (replace_from_segment prompt l CR _ eq_refl Hl).
  cbn [replace_from startswith prompt Ascii.eqb Bool.eqb CR LF andb].
  now rewrite (IH Hls).
Qed.

Lemma split_lines : forall lines,
  forallb plain lines = true ->
  split_from CRLF 0 (fold_right (fun line rest => line ++ CRLF ++ rest) "" lines)
  = (lines ++ [""])%list.
Proof.
  induction lines as [|l lines IH]; intros H; [reflexivity|].
  cbn [forallb] in H. apply andb_true_iff in H as [Hl Hls].
  apply plain_inv in Hl as [Hl _].
  cbn [fold_right]. rewrite (split_from_segment l _ Hl), (IH Hls). reflexivity.
Qed.

(** The segments of a well-formed frame: the echo, the lines, and one
    empty segment where the prompt stood. *)
Lemma frame_segments cmd lines :
  forallb plain (cmd :: lines) = true ->
  split_from CRLF 0 (replace_from prompt "" 0 (frame_text cmd lines))
  = cmd :: (lines ++ [""])%list.
Proof.
  intros H. pose proof H as H'.
  cbn [forallb] in H. apply andb_true_iff in H as [Hc Hls].
  apply plain_inv in Hc as [Hc1 Hc2].
  unfold frame_text.
  change (CRLF ++ ?r)%string with (String CR (String LF r)).
  rewrite (replace_from_segment prompt cmd CR _ eq_refl Hc2).
  cbn [replace_from startswith prompt Ascii.eqb Bool.eqb CR LF andb].
  rewrite (replace_prompt_lines lines Hls).
  change (String CR (String LF ?r)) with (CRLF ++ r)%string.
  rewrite (split_from_segment cmd _ Hc1), (split_lines lines Hls). reflexivity.
Qed.

End ScrubFacts.

Import Str Wire SerialAdapterWithEcho.

(** C1, as amended.  For a raw frame whose text is
    ["<cmd>\r\n<line1>\r\n...<lineN>\r\nch> "], where the command and the
    lines contain neither ["\r\n"] nor the prompt marker, removing the prompt
    and splitting on ["\r\n"] gives the segments [cmd], [line1] ... [lineN]
    and one empty segment; [_read_echo] drops the first and the last of them
    and returns the lines joined with [","], whatever the number of lines. *)
Theorem read_echo_scrubs_plain_frame :
  forall (cmd : string) (lines : list string) (raw : list byte)
         (sent0 : list string) (rest : list arrival),
    forallb plain (cmd :: lines) = true ->
    Codec.decode raw = Ok (frame_text cmd lines) ->
    split (replace (frame_text cmd lines) prompt "") echo_termination
      = Some (cmd :: (lines ++ [""])%list)
    /\ _read_echo (Channel sent0 (Frame raw :: rest))
       = (Ok (join "," lines), Channel sent0 rest).
Proof.
  intros cmd lines raw sent0 rest Hplain Hraw.
  pose proof (ScrubFacts.frame_segments cmd lines Hplain) as Hseg.
  split.
  - cbn [split echo_termination CRLF replace prompt]. f_equal. exact Hseg.
  - rewrite ScrubFacts.read_echo_frame, Hraw, ScrubFacts.scrub_eq, Hseg.
    now rewrite ScrubFacts.drop_first_and_last_middle.
Qed.

Lemma read_echo_scrubs_plain_frame_witness :
  let cmd := "data 0" in
  let lines := ["1.0 2.0"; "3.0 -1.0"] in
  let raw := list_byte_of_string (frame_text cmd lines) in
  forallb plain (cmd :: lines) = true
  /\ Codec.decode raw = Ok (frame_text cmd lines)
  /\ _read_echo (Channel [] [Frame raw]) = (Ok "1.0 2.0,3.0 -1.0", Channel [] []).
Proof.
  cbv zeta. split; [reflexivity|]. split; [reflexivity|].
  exact (proj2 (read_echo_scrubs_plain_frame
                  "data 0" ["1.0 2.0"; "3.0 -1.0"]
                  (list_byte_of_string (frame_text "data 0" ["1.0 2.0"; "3.0 -1.0"]))
                  [] [] eq_refl eq_refl)).
Defined.

(** C1 as stated fails when a reply line carries the prompt marker: the
    frame ["c\r\nach> b\r\nch> "] has the single line ["ach> b"], and it is
    scrubbed to ["ab"]. *)
Lemma read_echo_strips_prompt_inside_line :
  let lines := ["ach> b"] in
  let raw := list_byte_of_string (frame_text "c" lines) in
  fst (_read_echo (Channel [] [Frame raw])) = Ok "ab"
  /\ String.eqb "ab" (join "," lines) = false.
Proof. cbv zeta. split; reflexivity. Qed.

(** C2, as amended.  When the decoded text, after removal of the prompt
    marker, splits into fewer than 2 segments, [_read_echo] returns the
    empty string: the slice [[1:-1]] is empty and so is its join.  No error
    is raised. *)
Theorem read_echo_short_frame_returns_empty :
  forall (raw : list byte) (read : string) (segments : list string)
         (sent0 : list string) (rest : list arrival),
    Codec.decode raw = Ok read ->
    split (replace read prompt "") echo_termination = Some segments ->
    List.length segments < 2 ->
    _read_echo (Channel sent0 (Frame raw :: rest)) = (Ok "", Channel sent0 rest).
Proof.
  intros raw read segments sent0 rest Hraw Hsplit Hlen.
  rewrite ScrubFacts.read_echo_frame, Hraw.
  unfold scrub. rewrite Hsplit.
  now rewrite (ScrubFacts.drop_first_and_last_short segments Hlen).
Qed.

Lemma read_echo_short_frame_returns_empty_witness :
  let raw := list_byte_of_string "ch> " in
  Codec.decode raw = Ok "ch> "
  /\ split (replace "ch> " prompt "") echo_termination = Some [""]
  /\ List.length [""] < 2
  /\ _read_echo (Channel [] [Frame raw]) = (Ok "", Channel [] []).
Proof.
  cbv zeta. split; [reflexivity|]. split; [reflexivity|]. split; [simpl; lia|].
  apply (read_echo_short_frame_returns_empty
           (list_byte_of_string "ch> ") "ch> " [""] [] []);
    [reflexivity|reflexivity|simpl; lia].
Defined.

(** C2 as stated fails on the empty reply: the text splits into one
    segment, and the read returns [""] instead of failing. *)
Lemma read_echo_empty_reply_is_not_an_error :
  split (replace "" prompt "") echo_termination = Some [""]
  /\ _read_echo (Channel [] [Frame []]) = (Ok "", Channel [] [])
  /\ is_ok (fst (_read_echo (Channel [] [Frame []]))) = true.
Proof. repeat split. Qed.

(** C3.  When the decoded text, after removal of every prompt marker, has
    no ["\r\n"], splitting yields exactly one segment and [_read_echo]
    returns the empty string without raising. *)
Theorem read_echo_without_termination_returns_empty :
  forall (raw : list byte) (read : string)
         (sent0 : list string) (rest : list arrival),
    Codec.decode raw = Ok read ->
    contains echo_termination (replace read prompt "") = false ->
    split (replace read prompt "") echo_termination
      = Some [replace read prompt ""]
    /\ drop_first_and_last [replace read prompt ""] = []
    /\ join "," [] = ""
    /\ _read_echo (Channel sent0 (Frame raw :: rest)) = (Ok "", Channel sent0 rest).
Proof.
  intros raw read sent0 rest Hraw Hfree.
  assert (Hsplit : split (replace read prompt "") echo_termination
                   = Some [replace read prompt ""]).
  { cbn [split echo_termination CRLF]. f_equal.
    apply (StrFacts.split_from_absent CRLF). exact Hfree. }
  repeat split; try assumption.
  rewrite ScrubFacts.read_echo_frame, Hraw.
  unfold scrub. rewrite Hsplit. reflexivity.
Qed.

Lemma read_echo_without_termination_returns_empty_witness :
  let raw := list_byte_of_string "data 0" in
  Codec.decode raw = Ok "data 0"
  /\ contains echo_termination (replace "data 0" prompt "") = false
  /\ _read_echo (Channel [] [Frame raw]) = (Ok "", Channel [] []).
Proof.
  cbv zeta. split; [reflexivity|]. split; [reflexivity|].
  apply (read_echo_without_termination_returns_empty
           (list_byte_of_string "data 0") "data 0" [] []);
    reflexivity.
Defined.

(* ================================================================== *)
(** ** Arrays *)

Module NpFacts.
Import Np.

Section Strides.
Context {A : Type}.

(** Induction over a list two elements at a time. *)
Lemma list_ind_by_2 (P : list A -> Prop) :
  P [] -> (forall x, P [x]) -> (forall x y l, P l -> P (x :: y :: l)) ->
  forall l, P l.
Proof.
  intros H0 H1 H2.
  assert (both : forall l, P l /\ forall x, P (x :: l)).
  { induction l as [|y l [IHl IHxl]]; split; auto. }
  intros l. apply both.
Qed.

Lemma every_other_length : forall l : list A,
  List.length (every_other l) = Nat.div2 (S (List.length l)).
Proof.
  induction l as [| x | x y l IH] using list_ind_by_2; [reflexivity..|].
  cbn [every_other List.length Nat.div2] in *. now rewrite IH.
Qed.

Lemma every_other_from_1_length (l : list A) :
  List.length (every_other_from_1 l) = Nat.div2 (List.length l).
Proof.
  unfold every_other_from_1. rewrite every_other_length.
  destruct l; reflexivity.
Qed.

Lemma every_other_nth : forall (l : list A) i,
  nth_error (every_other l) i = nth_error l (2 * i).
Proof.
  induction l as [| x | x y l IH] using list_ind_by_2; intros i.
  - now destruct i.
  - destruct i as [|i]; [reflexivity|].
    cbn [every_other]. replace (2 * S i) with (S (S (2 * i))) by lia.
    cbn [nth_error]. destruct i; reflexivity.
  - destruct i as [|i]; [reflexivity|].
    cbn [every_other]. replace (2 * S i) with (S (S (2 * i))) by lia.
    cbn [nth_error]. apply IH.
Qed.

Lemma every_other_from_1_nth (l : list A) i :
  nth_error (every_other_from_1 l) i = nth_error l (2 * i + 1).
Proof.
  unfold every_other_from_1. rewrite every_other_nth.
  replace (2 * i + 1) with (S (2 * i)) by lia.
  destruct l; [now destruct (2 * i)|reflexivity].
Qed.

End Strides.

Lemma zip_with_length {A B C} (f : A -> B -> C) : forall a b,
  List.length a = List.length b ->
  List.length (zip_with f a b) = List.length a.
Proof.
  induction a as [|x a IH]; intros [|y b] H; simpl in *; try lia.
  now rewrite IH by lia.
Qed.

Lemma zip_with_nth {A B C} (f : A -> B -> C) : forall a b i x y,
  nth_error a i = Some x -> nth_error b i = Some y ->
  nth_error (zip_with f a b) i = Some (f x y).
Proof.
  induction a as [|x0 a IH]; intros [|y0 b] [|i] x y Ha Hb;
    simpl in *; try discriminate.
  - congruence.
  - now apply IH.
Qed.

Lemma broadcast_same_length {A B C} (f : A -> B -> C) a b :
  List.length a = List.length b ->
  broadcast f a b = Ok (zip_with f a b).
Proof. intros H. unfold broadcast. now rewrite H, Nat.eqb_refl. Qed.

(** Two operands of different lengths, none of length 1, cannot be
    broadcast together. *)
Lemma broadcast_mismatch {A B C} (f : A -> B -> C) a b :
  List.length a <> List.length b ->
  List.length a <> 1 -> List.length b <> 1 ->
  broadcast f a b = Err ValueError.
Proof.
  intros Hab Ha Hb. unfold broadcast.
  apply Nat.eqb_neq in Hab. rewrite Hab.
  destruct a as [|x [|x' a]]; destruct b as [|y [|y' b]];
    simpl in *; congruence.
Qed.

Section Conversion.
Variable conv : string -> option float64.

Lemma array_float_ok : forall tokens vals,
  map conv tokens = map Some vals -> array_float conv tokens = Ok vals.
Proof.
  induction tokens as [|t tokens IH]; intros [|v vals] H;
    simpl in H; try discriminate; [reflexivity|].
  injection H as Ht Hrest. cbn [array_float].
  now rewrite Ht, (IH vals Hrest).
Qed.

Lemma array_float_ok_inv : forall tokens vals,
  array_float conv tokens = Ok vals -> map conv tokens = map Some vals.
Proof.
  induction tokens as [|t tokens IH]; intros vals H; cbn [array_float] in H.
  - now injection H as <-.
  - destruct (conv t) as [x|] eqn:Ht; [|discriminate].
    destruct (array_float conv tokens) as [xs|e]; [|discriminate].
    injection H as <-. simpl. now rewrite Ht, (IH xs eq_refl).
Qed.

Lemma array_float_length tokens vals :
  array_float conv tokens = Ok vals -> List.length vals = List.length tokens.
Proof.
  intros H. apply array_float_ok_inv in H.
  apply (f_equal (@List.length _)) in H. now rewrite !length_map in H.
Qed.

(** The only exception of the conversion is [ValueError], and it is
    raised exactly when some token is rejected. *)
Lemma array_float_rejects : forall tokens,
  (exists t, In t tokens /\ conv t = None) ->
  array_float conv tokens = Err ValueError.
Proof.
  induction tokens as [|t tokens IH]; intros [t' [Hin Hnone]]; [destruct Hin|].
  cbn [array_float]. destruct (conv t) as [x|] eqn:Ht; [|reflexivity].
  destruct Hin as [->|Hin]; [congruence|].
  now rewrite IH by (exists t'; auto).
Qed.

Lemma array_float_err_inv : forall tokens e,
  array_float conv tokens = Err e ->
  e = ValueError /\ exists t, In t tokens /\ conv t = None.
Proof.
  induction tokens as [|t tokens IH]; intros e H; cbn [array_float] in H;
    [discriminate|].
  destruct (conv t) as [x|] eqn:Ht.
  - destruct (array_float conv tokens) as [xs|e'] eqn:Hrest; [discriminate|].
    injection H as <-. destruct (IH e' eq_refl) as [-> [t' [Hin Hnone]]].
    split; [reflexivity|]. exists t'. simpl. auto.
  - injection H as <-. split; [reflexivity|]. exists t. simpl. auto.
Qed.

End Conversion.

End NpFacts.

(* ================================================================== *)
(** ** Decoding replies *)

Module DecodeFacts.
Import Np NpFacts NanoVNA.

Section Decode.
Variable conv : string -> option float64.

Lemma process_data_eq data :
  _process_data conv data =
  match array_float conv (split_from "," 0 (replace_from " " "," 0 data)) with
  | Err e => Err e
  | Ok data => add_float_complex (every_other data)
                                 (times_1j (every_other_from_1 data))
  end.
Proof. reflexivity. Qed.

Lemma tokens_eq data tokens :
  split (replace data " " ",") "," = Some tokens ->
  tokens = split_from "," 0 (replace_from " " "," 0 data).
Proof. cbn [split replace]. now intros [= <-]. Qed.

Lemma get_S11_data_after_ask ch reply ch' :
  ask "data 0" ch = (Ok reply, ch') ->
  get_S11_data conv ch = (_process_data conv reply, ch').
Proof. intros H. unfold get_S11_data, bind, lift. now rewrite H. Qed.

Lemma get_S21_data_after_ask ch reply ch' :
  ask "data 1" ch = (Ok reply, ch') ->
  get_S21_data conv ch = (_process_data conv reply, ch').
Proof. intros H. unfold get_S21_data, bind, lift. now rewrite H. Qed.

Lemma get_frequencies_after_ask ch reply ch' :
  ask "frequencies" ch = (Ok reply, ch') ->
  get_frequencies conv ch = (_process_frequencies conv reply, ch').
Proof. intros H. unfold get_frequencies, bind, lift. now rewrite H. Qed.

(** A single numeric token: the slice [[1::2]] is empty and the
    one-element slice [[::2]] is broadcast to it. *)
Lemma process_data_1_token data t x :
  split (replace data " " ",") "," = Some [t] ->
  conv t = Some x ->
  _process_data conv data = Ok [].
Proof.
  intros Ht Hx. apply tokens_eq in Ht.
  rewrite process_data_eq, <- Ht. cbn [array_float]. now rewrite Hx.
Qed.

(** Three numeric tokens: the one-element slice [[1::2]] is broadcast, so
    both results share the imaginary part. *)
Lemma process_data_3_tokens data t0 t1 t2 x0 x1 x2 :
  split (replace data " " ",") "," = Some [t0; t1; t2] ->
  conv t0 = Some x0 -> conv t1 = Some x1 -> conv t2 = Some x2 ->
  _process_data conv data =
  Ok [cadd (of_float x0) (cmul (of_float x1) j);
      cadd (of_float x2) (cmul (of_float x1) j)].
Proof.
  intros Ht H0 H1 H2. apply tokens_eq in Ht.
  rewrite process_data_eq, <- Ht. cbn [array_float]. now rewrite H0, H1, H2.
Qed.

End Decode.

End DecodeFacts.

Import Np NanoVNA.

(** C4.  When the tokens of a scrubbed reply, spaces and commas both
    delimiting, are [2k] numeric values [t], [_process_data] returns a
    complex sequence of length [k] with [result[i] = t[2i] + 1j * t[2i+1]];
    [get_S11_data] and [get_S21_data] return it for the reply to
    ["data 0"] and ["data 1"]. *)
Theorem process_data_pairs :
  forall (conv : string -> option float64) (reply : string)
         (tokens : list string) (t : list float64) (k : nat),
    split (replace reply " " ",") "," = Some tokens ->
    map conv tokens = map Some t ->
    List.length t = 2 * k ->
    exists result : list complex128,
      _process_data conv reply = Ok result
      /\ List.length result = k
      /\ (forall i, i < k ->
            exists re im,
              nth_error t (2 * i) = Some re
              /\ nth_error t (2 * i + 1) = Some im
              /\ nth_error result i
                 = Some (cadd (of_float re) (cmul (of_float im) j)))
      /\ (forall ch ch', ask "data 0" ch = (Ok reply, ch') ->
            get_S11_data conv ch = (Ok result, ch'))
      /\ (forall ch ch', ask "data 1" ch = (Ok reply, ch') ->
            get_S21_data conv ch = (Ok result, ch')).
Proof.
  intros conv reply tokens t k Htok Hnum Hlen.
  apply DecodeFacts.tokens_eq in Htok.
  assert (He : List.length (every_other t) = k).
  { rewrite NpFacts.every_other_length, Hlen. apply Nat.div2_succ_double. }
  assert (Ho : List.length (times_1j (every_other_from_1 t)) = k).
  { unfold times_1j.
    rewrite length_map, NpFacts.every_other_from_1_length, Hlen.
    apply Nat.div2_double. }
  assert (Hres : _process_data conv reply =
                 Ok (zip_with (fun x z => cadd (of_float x) z) (every_other t)
                              (times_1j (every_other_from_1 t)))).
  { rewrite DecodeFacts.process_data_eq, <- Htok.
    rewrite (NpFacts.array_float_ok conv tokens t Hnum).
    apply NpFacts.broadcast_same_length. congruence. }
  eexists. split; [exact Hres|]. split; [|split; [|split]].
  - rewrite NpFacts.zip_with_length; congruence.
  - intros i Hi.
    destruct (nth_error t (2 * i)) as [re|] eqn:Hre;
      [|apply nth_error_None in Hre; lia].
    destruct (nth_error t (2 * i + 1)) as [im|] eqn:Him;
      [|apply nth_error_None in Him; lia].
    exists re, im. repeat split.
    apply (NpFacts.zip_with_nth (fun x z => cadd (of_float x) z)
             _ _ i re (cmul (of_float im) j)).
    + now rewrite NpFacts.every_other_nth.
    + unfold times_1j.
      now rewrite nth_error_map, NpFacts.every_other_from_1_nth, Him.
  - intros ch ch' Hask.
    now rewrite (DecodeFacts.get_S11_data_after_ask conv ch reply ch' Hask), Hres.
  - intros ch ch' Hask.
    now rewrite (DecodeFacts.get_S21_data_after_ask conv ch reply ch' Hask), Hres.
Qed.

(** The reply ["1.0 2.0,3.0 -1.0"] decodes to [[1.0+2.0j, 3.0-1.0j]]. *)
Lemma process_data_pairs_witness :
  let reply := "1.0 2.0,3.0 -1.0" in
  let tokens := ["1.0"; "2.0"; "3.0"; "-1.0"] in
  let one := S754_finite false 4503599627370496 (-52) in
  let two := S754_finite false 4503599627370496 (-51) in
  let three := S754_finite false 6755399441055744 (-51) in
  let minus_one := S754_finite true 4503599627370496 (-52) in
  let t := [one; two; three; minus_one] in
  split (replace reply " " ",") "," = Some tokens
  /\ map Literal.float_of_str tokens = map Some t
  /\ List.length t = 2 * 2
  /\ _process_data Literal.float_of_str reply
     = Ok [Complex one two; Complex three minus_one]
  /\ exists result : list complex128,
      _process_data Literal.float_of_str reply = Ok result
      /\ List.length result = 2
      /\ (forall i, i < 2 ->
            exists re im,
              nth_error t (2 * i) = Some re
              /\ nth_error t (2 * i + 1) = Some im
              /\ nth_error result i
                 = Some (cadd (of_float re) (cmul (of_float im) j)))
      /\ (forall ch ch', ask "data 0" ch = (Ok reply, ch') ->
            get_S11_data Literal.float_of_str ch = (Ok result, ch'))
      /\ (forall ch ch', ask "data 1" ch = (Ok reply, ch') ->
            get_S21_data Literal.float_of_str ch = (Ok result, ch')).
Proof.
  cbv zeta. split; [reflexivity|]. split; [reflexivity|].
  split; [reflexivity|]. split; [reflexivity|].
  exact (process_data_pairs Literal.float_of_str "1.0 2.0,3.0 -1.0"
           ["1.0"; "2.0"; "3.0"; "-1.0"]
           [S754_finite false 4503599627370496 (-52);
            S754_finite false 4503599627370496 (-51);
            S754_finite false 6755399441055744 (-51);
            S754_finite true 4503599627370496 (-52)]
           2 eq_refl eq_refl eq_refl).
Defined.

(** C5.  For a scrubbed reply split at its commas: when every token is
    numeric, [_process_frequencies], and so [get_frequencies], returns the
    tokens converted to floats, in order; when some token is not numeric,
    the conversion fails. *)
Theorem get_frequencies_parses_floats :
  forall (conv : string -> option float64) (reply : string)
         (tokens : list string),
    split reply "," = Some tokens ->
    (forall freqs : list float64,
        map conv tokens = map Some freqs ->
        _process_frequencies conv reply = Ok freqs
        /\ forall ch ch', ask "frequencies" ch = (Ok reply, ch') ->
             get_frequencies conv ch = (Ok freqs, ch'))
    /\ ((exists tok, In tok tokens /\ conv tok = None) ->
        _process_frequencies conv reply = Err ValueError
        /\ forall ch ch', ask "frequencies" ch = (Ok reply, ch') ->
             get_frequencies conv ch = (Err ValueError, ch')).
Proof.
  intros conv reply tokens Htok.
  assert (Heq : _process_frequencies conv reply = array_float conv tokens).
  { unfold _process_frequencies. now rewrite Htok. }
  split.
  - intros freqs Hnum.
    assert (Hres : _process_frequencies conv reply = Ok freqs).
    { rewrite Heq. now apply NpFacts.array_float_ok. }
    split; [exact Hres|]. intros ch ch' Hask.
    now rewrite (DecodeFacts.get_frequencies_after_ask conv ch reply ch' Hask), Hres.
  - intros Hbad.
    assert (Hres : _process_frequencies conv reply = Err ValueError).
    { rewrite Heq. now apply NpFacts.array_float_rejects. }
    split; [exact Hres|]. intros ch ch' Hask.
    now rewrite (DecodeFacts.get_frequencies_after_ask conv ch reply ch' Hask), Hres.
Qed.

(** The reply ["1000000,2000000,3000000"] yields [[1.0e6, 2.0e6, 3.0e6]];
    the reply ["1000000,2e6Hz"] is rejected. *)
Lemma get_frequencies_parses_floats_witness :
  let f1e6 := S754_finite false 8589934592000000 (-33) in
  let f2e6 := S754_finite false 8589934592000000 (-32) in
  let f3e6 := S754_finite false 6442450944000000 (-31) in
  (split "1000000,2000000,3000000" ","
     = Some ["1000000"; "2000000"; "3000000"]
   /\ map Literal.float_of_str ["1000000"; "2000000"; "3000000"]
      = map Some [f1e6; f2e6; f3e6]
   /\ _process_frequencies Literal.float_of_str "1000000,2000000,3000000"
      = Ok [f1e6; f2e6; f3e6])
  /\ (split "1000000,2e6Hz" "," = Some ["1000000"; "2e6Hz"]
      /\ Literal.float_of_str "2e6Hz" = None
      /\ _process_frequencies Literal.float_of_str "1000000,2e6Hz"
         = Err ValueError).
Proof.
  cbv zeta. split.
  - split; [reflexivity|]. split; [reflexivity|].
    exact (proj1 (proj1 (get_frequencies_parses_floats Literal.float_of_str
                           "1000000,2000000,3000000"
                           ["1000000"; "2000000"; "3000000"] eq_refl)
                   [S754_finite false 8589934592000000 (-33);
                    S754_finite false 8589934592000000 (-32);
                    S754_finite false 6442450944000000 (-31)]
                   eq_refl)).
  - split; [reflexivity|]. split; [reflexivity|].
    exact (proj1 (proj2 (get_frequencies_parses_floats Literal.float_of_str
                           "1000000,2e6Hz" ["1000000"; "2e6Hz"] eq_refl)
                   (ex_intro _ "2e6Hz" (conj (or_intror (or_introl eq_refl))
                                             eq_refl)))).
Defined.

(** C9, as amended.  When the token sequence of a scrubbed reply has an
    odd number of tokens and at least 5 of them, [_process_data] fails with
    [ValueError]: either a token is not numeric, or the slices [[::2]] and
    [[1::2]] differ in length and cannot be added. *)
Theorem process_data_odd_count_fails_from_5 :
  forall (conv : string -> option float64) (reply : string)
         (tokens : list string),
    split (replace reply " " ",") "," = Some tokens ->
    Nat.odd (List.length tokens) = true ->
    5 <= List.length tokens ->
    _process_data conv reply = Err ValueError.
Proof.
  intros conv reply tokens Htok Hodd Hfive.
  apply DecodeFacts.tokens_eq in Htok.
  rewrite DecodeFacts.process_data_eq, <- Htok.
  destruct (array_float conv tokens) as [data|e] eqn:Harr.
  - apply NpFacts.array_float_length in Harr.
    apply Nat.odd_spec in Hodd. destruct Hodd as [m Hm].
    assert (He : List.length (every_other data) = S m).
    { rewrite NpFacts.every_other_length, Harr, Hm.
      replace (S (2 * m + 1)) with (2 * S m) by lia. apply Nat.div2_double. }
    assert (Ho : List.length (times_1j (every_other_from_1 data)) = m).
    { unfold times_1j.
      rewrite length_map, NpFacts.every_other_from_1_length, Harr, Hm.
      replace (2 * m + 1) with (S (2 * m)) by lia. apply Nat.div2_succ_double. }
    unfold add_float_complex. apply NpFacts.broadcast_mismatch; lia.
  - apply NpFacts.array_float_err_inv in Harr. destruct Harr as [-> _].
    reflexivity.
Qed.

Lemma process_data_odd_count_fails_from_5_witness :
  let reply := "1 2 3 4 5" in
  let tokens := ["1"; "2"; "3"; "4"; "5"] in
  split (replace reply " " ",") "," = Some tokens
  /\ Nat.odd (List.length tokens) = true
  /\ 5 <= List.length tokens
  /\ _process_data Literal.float_of_str reply = Err ValueError.
Proof.
  cbv zeta. split; [reflexivity|]. split; [reflexivity|]. split; [simpl; lia|].
  apply (process_data_odd_count_fails_from_5 Literal.float_of_str "1 2 3 4 5"
           ["1"; "2"; "3"; "4"; "5"]); [reflexivity|reflexivity|simpl; lia].
Defined.

(** C9 as stated fails for one token: the reply ["1.0"] has an odd number
    of tokens and decodes to the empty sequence; and for three tokens:
    ["1 2 3"] decodes to two values. *)
Lemma process_data_odd_count_can_return :
  let one := S754_finite false 4503599627370496 (-52) in
  let two := S754_finite false 4503599627370496 (-51) in
  let three := S754_finite false 6755399441055744 (-51) in
  (split (replace "1.0" " " ",") "," = Some ["1.0"]
   /\ Nat.odd (List.length ["1.0"]) = true
   /\ _process_data Literal.float_of_str "1.0" = Ok [])
  /\ (split (replace "1 2 3" " " ",") "," = Some ["1"; "2"; "3"]
      /\ Nat.odd (List.length ["1"; "2"; "3"]) = true
      /\ _process_data Literal.float_of_str "1 2 3"
         = Ok [Complex one two; Complex three two]).
Proof. cbv zeta. repeat split. Qed.

(** C10.  Spaces and commas are interchangeable: decoding a string and
    decoding it with every space replaced by a comma give the same value
    or the same failure. *)
Theorem process_data_space_is_comma :
  forall (conv : string -> option float64) (s : string),
    _process_data conv (replace s " " ",") = _process_data conv s.
Proof.
  intros conv s. unfold _process_data.
  now rewrite (StrFacts.replace_char_idem " " "," s eq_refl).
Qed.

(* ================================================================== *)
(** ** Requests on the channel *)

Module RequestFacts.
Import Np NanoVNA.

Section Requests.
Variable conv : string -> option float64.

Lemma read_echo_keeps_sent ch :
  sent (snd (_read_echo ch)) = sent ch.
Proof.
  unfold _read_echo, bind, _read_bytes, lift.
  destruct (incoming ch) as [|[raw|] rest]; [reflexivity| |reflexivity].
  destruct (Codec.decode raw); reflexivity.
Qed.

(** A request writes its command line, whether or not it succeeds. *)
Lemma request_sent command ch :
  sent (snd (request conv command ch)) = (sent ch ++ [line command])%list.
Proof.
  unfold request, ask, bind, NanoVNA.write, SerialAdapterWithEcho.write, wait_for, ret, lift.
  pose proof (read_echo_keeps_sent
                (Channel (sent ch ++ [line command])%list (incoming ch))) as H.
  unfold line in *.
  destruct (_read_echo _) as [[data|e] ch1]; cbn [snd sent] in *; exact H.
Qed.

(** [requests] returns exactly when every request is served. *)
Lemma requests_served : forall commands ch values ch',
  requests conv commands ch = (Ok values, ch') <->
  served conv commands ch values ch'.
Proof.
  induction commands as [|c commands IH]; intros ch values ch'; split.
  - intros [= <- <-]. constructor.
  - intros H. inversion H; subst. reflexivity.
  - cbn [requests]. unfold bind at 1.
    destruct (request conv c ch) as [[v|e] ch1] eqn:R; [|discriminate].
    unfold bind. destruct (requests conv commands ch1) as [[vs|e] ch2] eqn:Rs;
      [|discriminate].
    intros [= <- <-]. econstructor; [exact R|]. now apply IH.
  - intros H. inversion H as [|? ? ? v ch1 vs ? R Hs]; subst.
    apply IH in Hs. cbn [requests]. unfold bind. now rewrite R, Hs.
Qed.

(** When the requests before one succeed and that one fails, the run
    fails with its exception, on the channel it left. *)
Lemma requests_stop_at_failure : forall earlier command later ch values ch1 e ch2,
  served conv earlier ch values ch1 ->
  request conv command ch1 = (Err e, ch2) ->
  requests conv (earlier ++ command :: later) ch = (Err e, ch2).
Proof.
  intros earlier command later ch values ch1 e ch2 Hs Hfail.
  induction Hs as [ch|c commands ch v ch' vs ch1 R _ IH].
  - cbn [app requests]. unfold bind. now rewrite Hfail.
  - cbn [app requests]. unfold bind at 1. rewrite R.
    unfold bind. now rewrite (IH Hfail).
Qed.

(** The lines a run writes: those of its commands, in order, up to and
    including the first request that fails. *)
Lemma requests_sent : forall commands ch,
  exists n,
    n <= List.length commands
    /\ (commands <> [] -> 1 <= n)
    /\ sent (snd (requests conv commands ch))
       = (sent ch ++ firstn n (map line commands))%list
    /\ (is_ok (fst (requests conv commands ch)) = true -> n = List.length commands).
Proof.
  induction commands as [|c commands IH]; intros ch.
  - exists 0. cbn. rewrite app_nil_r. repeat split; auto; congruence.
  - cbn [requests]. unfold bind, ret.
    pose proof (request_sent c ch) as Hc.
    destruct (request conv c ch) as [[v|e] ch1]; cbn [snd] in Hc.
    + destruct (IH ch1) as (n & Hn & _ & Hsent & Hok).
      exists (S n).
      destruct (requests conv commands ch1) as [[vs|e] ch2];
        cbn [snd fst is_ok List.length map firstn] in *;
        rewrite Hsent, Hc, <- app_assoc;
        (split; [lia|split; [intros _; lia|split; [reflexivity|]]]).
      * intros _. now rewrite Hok.
      * discriminate.
    + exists 1. cbn [snd fst is_ok List.length map firstn].
      split; [lia|split; [intros _; lia|split; [exact Hc|discriminate]]].
Qed.

(** [get_cals] runs the five requests and pairs the keys with the values. *)
Lemma get_cals_as_requests ch :
  get_cals conv ch =
  (values <- requests conv cal_commands ;; ret (combine cal_keys values)) ch.
Proof.
  change (get_cals conv) with
    (cal_load <- request conv "data 2" ;;
     cal_open <- request conv "data 3" ;;
     cal_short <- request conv "data 4" ;;
     cal_thru <- request conv "data 5" ;;
     cal_isoln <- request conv "data 6" ;;
     ret [("load", cal_load); ("open", cal_open); ("short", cal_short);
          ("thru", cal_thru); ("isoln", cal_isoln)]).
  unfold cal_commands. cbn [requests]. unfold bind.
  repeat match goal with
         | |- context [request conv ?c ?s] =>
             destruct (request conv c s) as [[? | ?] ?]; [|reflexivity]
         end.
  reflexivity.
Qed.

Lemma served_length : forall commands ch values ch',
  served conv commands ch values ch' ->
  List.length values = List.length commands.
Proof. induction 1; simpl; congruence. Qed.

(** The requests that are served write their lines, one each, in order. *)
Lemma served_lines : forall commands ch values ch',
  served conv commands ch values ch' ->
  sent ch' = (sent ch ++ map line commands)%list.
Proof.
  intros commands ch values ch' H.
  induction H as [ch|command commands ch value ch1 values ch2 Hreq _ IH].
  - symmetry. apply app_nil_r.
  - pose proof (request_sent command ch) as Hs. rewrite Hreq in Hs.
    cbn [snd] in Hs. rewrite IH, Hs, <- app_assoc. reflexivity.
Qed.

(** A run that fails has a first failing request: the requests before it
    were served, it raised the exception of the run, and the run ended on
    the channel it left. *)
Lemma requests_failure_inv : forall commands ch e ch',
  requests conv commands ch = (Err e, ch') ->
  exists earlier command later values ch1,
    commands = (earlier ++ command :: later)%list
    /\ served conv earlier ch values ch1
    /\ request conv command ch1 = (Err e, ch').
Proof.
  induction commands as [|c commands IH]; intros ch e ch' H; [discriminate|].
  cbn [requests] in H. unfold bind, ret in H.
  destruct (request conv c ch) as [[v|e1] ch1] eqn:R.
  - destruct (requests conv commands ch1) as [[vs|e2] ch2] eqn:Rs;
      [discriminate|].
    injection H as <- <-.
    destruct (IH ch1 e2 ch2 Rs) as (earlier & command & later & values & ch3
                                    & Hcmds & Hserved & Hfail).
    exists (c :: earlier), command, later, (v :: values), ch3.
    split; [now rewrite Hcmds|]. split; [|exact Hfail].
    econstructor; [exact R|exact Hserved].
  - injection H as <- <-.
    exists [], c, commands, [], ch. split; [reflexivity|].
    split; [constructor|exact R].
Qed.

End Requests.

End RequestFacts.

(** C6.  A call to [get_cals] that returns has issued exactly the 5
    requests ["data 2"], ["data 3"], ["data 4"], ["data 5"], ["data 6"], in
    this order, and returns the mapping whose keys, in insertion order, are
    load, open, short, thru, isoln, the value of the k-th key being the
    decoded reply of the k-th request; and it returns whenever the 5
    requests succeed.  The only other calls are those in which a request
    fails: such a call has issued the requests up to and including the
    first failing one, no other, and raises its exception. *)
Theorem get_cals_requests_and_keys :
  forall (conv : string -> option float64) (ch : channel),
    (forall mapping ch',
        get_cals conv ch = (Ok mapping, ch') ->
        sent ch' = (sent ch ++ [line "data 2"; line "data 3"; line "data 4";
                                line "data 5"; line "data 6"])%list
        /\ exists cal_load cal_open cal_short cal_thru cal_isoln,
             served conv cal_commands ch
                    [cal_load; cal_open; cal_short; cal_thru; cal_isoln] ch'
             /\ mapping = [("load", cal_load); ("open", cal_open);
                           ("short", cal_short); ("thru", cal_thru);
                           ("isoln", cal_isoln)])
    /\ (forall values ch',
          served conv cal_commands ch values ch' ->
          get_cals conv ch = (Ok (combine cal_keys values), ch')
          /\ sent ch' = (sent ch ++ [line "data 2"; line "data 3"; line "data 4";
                                     line "data 5"; line "data 6"])%list)
    /\ (forall e ch',
          get_cals conv ch = (Err e, ch') ->
          exists earlier command later values ch1,
            cal_commands = (earlier ++ command :: later)%list
            /\ served conv earlier ch values ch1
            /\ request conv command ch1 = (Err e, ch')
            /\ sent ch' = (sent ch ++ map line (earlier ++ [command]))%list).
Proof.
  intros conv ch. rewrite RequestFacts.get_cals_as_requests. unfold bind, ret.
  split; [|split].
  - intros mapping ch'.
    destruct (requests conv cal_commands ch) as [[values|e] ch1] eqn:R;
      [|discriminate].
    intros [= <- <-]. apply RequestFacts.requests_served in R.
    split; [exact (RequestFacts.served_lines conv _ _ _ _ R)|].
    pose proof (RequestFacts.served_length conv _ _ _ _ R) as Hlen.
    destruct values as [|v1 [|v2 [|v3 [|v4 [|v5 [|v6 values]]]]]];
      try discriminate Hlen.
    exists v1, v2, v3, v4, v5. split; [exact R|reflexivity].
  - intros values ch' Hs.
    split; [|exact (RequestFacts.served_lines conv _ _ _ _ Hs)].
    apply RequestFacts.requests_served in Hs. now rewrite Hs.
  - intros e ch'.
    destruct (requests conv cal_commands ch) as [[values|e1] ch1] eqn:R;
      [discriminate|].
    intros [= <- <-].
    destruct (RequestFacts.requests_failure_inv conv _ _ _ _ R)
      as (earlier & command & later & values & ch2 & Hcmds & Hserved & Hfail).
    exists earlier, command, later, values, ch2.
    repeat split; try assumption.
    pose proof (RequestFacts.request_sent conv command ch2) as Hs.
    rewrite Hfail in Hs. cbn [snd] in Hs.
    rewrite Hs, (RequestFacts.served_lines conv _ _ _ _ Hserved), map_app.
    now rewrite <- app_assoc.
Qed.

(** A device that answers each of the five requests with one pair. *)
Lemma get_cals_requests_and_keys_witness :
  let reply k := Frame (list_byte_of_string (frame_text k ["1.0 2.0"])) in
  let ch := Channel [] (map reply cal_commands) in
  let v := [Complex (S754_finite false 4503599627370496 (-52))
                    (S754_finite false 4503599627370496 (-51))] in
  served Literal.float_of_str cal_commands ch [v; v; v; v; v]
         (Channel (map line cal_commands) [])
  /\ get_cals Literal.float_of_str ch
     = (Ok [("load", v); ("open", v); ("short", v); ("thru", v); ("isoln", v)],
        Channel [line "data 2"; line "data 3"; line "data 4";
                 line "data 5"; line "data 6"] []).
Proof.
  cbv zeta.
  assert (Hs : served Literal.float_of_str cal_commands
                 (Channel [] (map (fun k => Frame (list_byte_of_string
                                                     (frame_text k ["1.0 2.0"])))
                                  cal_commands))
                 (repeat [Complex (S754_finite false 4503599627370496 (-52))
                                  (S754_finite false 4503599627370496 (-51))] 5)
                 (Channel (map line cal_commands) [])).
  { repeat (eapply served_next; [reflexivity|]). apply served_none. }
  split; [exact Hs|].
  exact (proj1 (proj1 (proj2 (get_cals_requests_and_keys Literal.float_of_str _))
                  _ _ Hs)).
Defined.

(** A call in which a request fails: when the reply to ["data 2"] has a
    token that is no number, [get_cals] raises after this single request
    and issues no other. *)
Example get_cals_stops_at_failed_request :
  let raw := list_byte_of_string (frame_text "data 2" ["0.5 x"]) in
  get_cals Literal.float_of_str (Channel [] [Frame raw])
  = (Err ValueError, Channel [line "data 2"] []).
Proof. reflexivity. Qed.

(** C7.  [get_cals] is all or nothing: when the requests before one of the
    five succeed and that one fails, [get_cals] fails with the same
    exception and returns no mapping. *)
Theorem get_cals_all_or_nothing :
  forall (conv : string -> option float64) (ch : channel)
         (earlier : list string) (command : string) (later : list string)
         (values : list (list complex128)) (ch1 : channel)
         (e : exn) (ch2 : channel),
    cal_commands = (earlier ++ command :: later)%list ->
    served conv earlier ch values ch1 ->
    request conv command ch1 = (Err e, ch2) ->
    get_cals conv ch = (Err e, ch2)
    /\ is_ok (fst (get_cals conv ch)) = false.
Proof.
  intros conv ch earlier command later values ch1 e ch2 Hcmds Hserved Hfail.
  assert (H : get_cals conv ch = (Err e, ch2)); [|now rewrite H].
  rewrite RequestFacts.get_cals_as_requests, Hcmds. unfold bind.
  now rewrite (RequestFacts.requests_stop_at_failure
                 conv earlier command later ch values ch1 e ch2 Hserved Hfail).
Qed.

(** The third request gets no answer. *)
Lemma get_cals_all_or_nothing_witness :
  let reply k := Frame (list_byte_of_string (frame_text k ["1.0 2.0"])) in
  let ch := Channel [] [reply "data 2"; reply "data 3"; Silence] in
  let v := [Complex (S754_finite false 4503599627370496 (-52))
                    (S754_finite false 4503599627370496 (-51))] in
  let ch1 := Channel [line "data 2"; line "data 3"] [Silence] in
  let ch2 := Channel [line "data 2"; line "data 3"; line "data 4"] [] in
  cal_commands = (["data 2"; "data 3"] ++ "data 4" :: ["data 5"; "data 6"])%list
  /\ served Literal.float_of_str ["data 2"; "data 3"] ch [v; v] ch1
  /\ request Literal.float_of_str "data 4" ch1 = (Err TimeoutError, ch2)
  /\ get_cals Literal.float_of_str ch = (Err TimeoutError, ch2).
Proof.
  cbv zeta.
  assert (Hs : served Literal.float_of_str ["data 2"; "data 3"]
                 (Channel [] [Frame (list_byte_of_string (frame_text "data 2" ["1.0 2.0"]));
                              Frame (list_byte_of_string (frame_text "data 3" ["1.0 2.0"]));
                              Silence])
                 [[Complex (S754_finite false 4503599627370496 (-52))
                           (S754_finite false 4503599627370496 (-51))];
                  [Complex (S754_finite false 4503599627370496 (-52))
                           (S754_finite false 4503599627370496 (-51))]]
                 (Channel [line "data 2"; line "data 3"] [Silence])).
  { repeat (eapply served_next; [reflexivity|]). apply served_none. }
  split; [reflexivity|]. split; [exact Hs|]. split; [reflexivity|].
  exact (proj1 (get_cals_all_or_nothing Literal.float_of_str _
                  ["data 2"; "data 3"] "data 4" ["data 5"; "data 6"]
                  _ _ TimeoutError _ eq_refl Hs eq_refl)).
Defined.

(** C8.  Setting [power] to an integer [v] succeeds exactly when [v] is
    one of -1, 0, 1, 2, 3, and then writes the line ["power v"]; for any
    other [v] it fails with [ValidationError] and the channel is left as it
    was: nothing is written. *)
Theorem power_accepts_only_its_values :
  forall (v : Z) (ch : channel),
    (In v [-1; 0; 1; 2; 3]%Z ->
     power_fset v ch
     = (Ok tt, Channel (sent ch ++ [line ("power " ++ format_d v)]) (incoming ch)))
    /\ (~ In v [-1; 0; 1; 2; 3]%Z ->
        power_fset v ch = (Err ValidationError, ch))
    /\ (is_ok (fst (power_fset v ch)) = true <-> In v [-1; 0; 1; 2; 3]%Z).
Proof.
  intros v ch.
  unfold power_fset, bind, lift, strict_discrete_set, NanoVNA.write,
    SerialAdapterWithEcho.write, line.
  destruct (existsb (Z.eqb v) power_values) eqn:E.
  - assert (Hin : In v [-1; 0; 1; 2; 3]%Z).
    { apply existsb_exists in E. destruct E as [x [Hx Hv]].
      apply Z.eqb_eq in Hv. now subst x. }
    repeat split; auto. intros Hn. contradiction.
  - assert (Hout : ~ In v [-1; 0; 1; 2; 3]%Z).
    { intros Hin. assert (existsb (Z.eqb v) power_values = true); [|congruence].
      apply existsb_exists. exists v. split; [exact Hin|apply Z.eqb_refl]. }
    repeat split; auto; try contradiction. cbn [fst is_ok]. discriminate.
Qed.

(** Setting [power] to 5 fails and writes nothing; setting it to -1 writes
    ["power -1"]. *)
Lemma power_accepts_only_its_values_witness :
  (~ In 5%Z [-1; 0; 1; 2; 3]%Z
   /\ power_fset 5 (Channel [] []) = (Err ValidationError, Channel [] []))
  /\ (In (-1)%Z [-1; 0; 1; 2; 3]%Z
      /\ power_fset (-1) (Channel [] []) = (Ok tt, Channel [line "power -1"] [])).
Proof.
  assert (H5 : ~ In 5%Z [-1; 0; 1; 2; 3]%Z).
  { simpl. intros [H|[H|[H|[H|[H|[]]]]]]; discriminate H. }
  assert (H1 : In (-1)%Z [-1; 0; 1; 2; 3]%Z) by (left; reflexivity).
  split; split; try assumption.
  - exact (proj1 (proj2 (power_accepts_only_its_values 5 (Channel [] []))) H5).
  - exact (proj1 (power_accepts_only_its_values (-1) (Channel [] [])) H1).
Defined.

(* ================================================================== *)
(** ** The driver end to end *)

(** One exchange with the device: [get_S11_data] writes ["data 0"], reads
    the frame with the echo, two reply lines and the prompt, and returns
    the two complex values. *)
Example get_S11_data_exchange :
  let raw := list_byte_of_string (frame_text "data 0" ["1.0 2.0"; "3.0 -1.0"]) in
  get_S11_data Literal.float_of_str (Channel [] [Frame raw])
  = (Ok [Complex (S754_finite false 4503599627370496 (-52))
                 (S754_finite false 4503599627370496 (-51));
         Complex (S754_finite false 6755399441055744 (-51))
                 (S754_finite true 4503599627370496 (-52))],
     Channel [line "data 0"] []).
Proof. reflexivity. Qed.

(** A reply that is not valid UTF-8 raises at the decoding, after the
    command went out. *)
Example get_frequencies_undecodable :
  get_frequencies Literal.float_of_str (Channel [] [Frame ["255"%byte]])
  = (Err UnicodeDecodeError, Channel [line "frequencies"] []).
Proof. reflexivity. Qed.

(* ================================================================== *)
(** ** More on splitting and replacing *)

Module SplitFacts.
Import Str StrFacts.

Lemma append_assoc (a b c : string) : ((a ++ b) ++ c = a ++ (b ++ c))%string.
Proof. induction a as [|x a IH]; simpl; [reflexivity|now rewrite IH]. Qed.

Lemma append_nil_r (a : string) : (a ++ "" = a)%string.
Proof. induction a as [|x a IH]; simpl; [reflexivity|now rewrite IH]. Qed.

Lemma startswith_length : forall p s,
  startswith s p = true -> String.length p <= String.length s.
Proof.
  induction p as [|a p IH]; intros s H; simpl; [lia|].
  destruct s as [|b s]; [discriminate|]. simpl in H.
  apply andb_true_iff in H as [_ H]. apply IH in H. simpl. lia.
Qed.

Lemma startswith_app_mono : forall p s t,
  startswith s p = true -> startswith (s ++ t) p = true.
Proof.
  induction p as [|a p IH]; intros s t H; [reflexivity|].
  destruct s as [|b s]; [discriminate|]. simpl in *.
  apply andb_true_iff in H as [Hab H]. now rewrite Hab, (IH s t H).
Qed.

(** *** A character outside the pattern is a barrier for [replace] *)

Lemma replace_from_boundary old new c t :
  mem c old = false ->
  forall s k, k <= String.length s ->
    replace_from old new k (s ++ String c t)
    = (replace_from old new k s ++ replace_from old new 0 (String c t))%string.
Proof.
  intros Hc. induction s as [|b s IH]; intros k Hk.
  - simpl in Hk. replace k with 0 by lia. reflexivity.
  - change ((String b s ++ String c t)%string) with (String b (s ++ String c t)).
    destruct k as [|k].
    + cbn [replace_from].
      destruct (startswith (String b (s ++ String c t)) old) eqn:E.
      * apply (startswith_app_inv (String b s)) in E.
        destruct E as [E|E]; [|congruence].
        rewrite E. pose proof (startswith_length _ _ E) as Hlen.
        cbn [String.length] in Hlen.
        rewrite IH by lia. now rewrite append_assoc.
      * destruct (startswith (String b s) old) eqn:E'.
        { apply (startswith_app_mono _ _ (String c t)) in E'.
          change ((String b s ++ String c t)%string)
            with (String b (s ++ String c t)) in E'. congruence. }
        rewrite IH by lia. reflexivity.
    + cbn [replace_from]. apply IH. simpl in Hk. lia.
Qed.

(** *** A one-character pattern, a one-character separator *)

Lemma replace_char_app (a b : ascii) : forall s t,
  replace_from (String a "") (String b "") 0 (s ++ t)
  = (replace_from (String a "") (String b "") 0 s
     ++ replace_from (String a "") (String b "") 0 t)%string.
Proof.
  induction s as [|c s IH]; intros t; [reflexivity|].
  change ((String c s ++ t)%string) with (String c (s ++ t)).
  cbn [replace_from startswith String.length Nat.sub].
  destruct (Ascii.eqb a c); cbn [andb append]; now rewrite IH.
Qed.

Lemma split_char_app (c : ascii) : forall s t,
  split_from (String c "") 0 (s ++ String c t)
  = (split_from (String c "") 0 s ++ split_from (String c "") 0 t)%list.
Proof.
  induction s as [|d s IH]; intros t.
  - cbn [append split_from startswith String.length Nat.sub].
    rewrite Ascii.eqb_refl. reflexivity.
  - change ((String d s ++ String c t)%string) with (String d (s ++ String c t)).
    cbn [split_from startswith String.length Nat.sub].
    destruct (Ascii.eqb c d); cbn [andb].
    + now rewrite IH.
    + rewrite IH. pose proof (split_from_not_nil (String c "") s 0) as Hn.
      destruct (split_from (String c "") 0 s); [congruence|reflexivity].
Qed.

Lemma split_char_length (c : ascii) : forall s,
  List.length (split_from (String c "") 0 s) = S (Reply.count c s).
Proof.
  induction s as [|d s IH]; [reflexivity|].
  cbn [split_from startswith String.length Nat.sub Reply.count].
  destruct (Ascii.eqb c d); cbn [andb].
  - cbn [List.length]. now rewrite IH.
  - destruct (split_from (String c "") 0 s); simpl in *; lia.
Qed.

(** [sep.join(parts).split(sep)] gives the parts back when there is at
    least one part and none holds the separator. *)
Lemma split_join_char (c : ascii) : forall parts,
  parts <> [] ->
  forallb (fun p => negb (contains (String c "") p)) parts = true ->
  split_from (String c "") 0 (join (String c "") parts) = parts.
Proof.
  induction parts as [|p parts IH]; intros Hne Hfree; [congruence|].
  cbn [forallb] in Hfree. apply andb_true_iff in Hfree as [Hp Hfree].
  apply negb_true_iff in Hp.
  destruct parts as [|q parts].
  - cbn [join String.concat]. now apply split_from_absent.
  - change (join (String c "") (p :: q :: parts))
      with (p ++ String c (join (String c "") (q :: parts)))%string.
    rewrite split_char_app, (split_from_absent _ p Hp), IH; [reflexivity| |exact Hfree].
    discriminate.
Qed.

(** *** Segments never hold the separator *)

Lemma split_from_head_prefix sep : forall s,
  exists seg rest t, split_from sep 0 s = seg :: rest /\ s = (seg ++ t)%string.
Proof.
  induction s as [|c s (seg & rest & t & Hs & Ht)].
  - exists "", [], "". split; reflexivity.
  - cbn [split_from]. destruct (startswith (String c s) sep).
    + exists "", (split_from sep (String.length sep - 1) s), (String c s).
      split; reflexivity.
    + rewrite Hs. exists (String c seg), rest, t. split; [reflexivity|].
      simpl. now rewrite <- Ht.
Qed.

Lemma split_from_segments_free sep : sep <> "" -> forall s k,
  Forall (fun seg => contains sep seg = false) (split_from sep k s).
Proof.
  intros Hsep.
  assert (Hnil : contains sep "" = false).
  { destruct sep; [congruence|reflexivity]. }
  induction s as [|c s IH]; intros k.
  - constructor; [exact Hnil|constructor].
  - cbn [split_from]. destruct k as [|k]; [|apply IH].
    destruct (startswith (String c s) sep) eqn:E.
    + constructor; [exact Hnil|apply IH].
    + destruct (split_from_head_prefix sep s) as (seg & rest & t & Hs & Ht).
      specialize (IH 0). rewrite Hs in *. inversion IH as [|? ? Hseg Hrest]; subst seg rest.
      constructor; [|exact Hrest].
      cbn [contains]. rewrite Hseg, orb_false_r.
      destruct (startswith (String c x) sep) eqn:E'; [|reflexivity].
      apply (startswith_app_mono _ _ t) in E'.
      change ((String c x ++ t)%string) with (String c (x ++ t)) in E'.
      rewrite <- Ht in E'. congruence.
Qed.

(** Joining with a character outside the pattern creates no match. *)
Lemma contains_app_boundary p c : mem c p = false -> forall a b,
  contains p a = false -> contains p (String c b) = false ->
  contains p (a ++ String c b) = false.
Proof.
  intros Hc. induction a as [|x a IH]; intros b Ha Hb; [exact Hb|].
  apply contains_cons_false in Ha as [Hh Ht].
  change ((String x a ++ String c b)%string) with (String x (a ++ String c b)).
  cbn [contains]. rewrite (IH b Ht Hb), orb_false_r.
  destruct (startswith (String x (a ++ String c b)) p) eqn:E; [|reflexivity].
  apply (startswith_app_inv (String x a)) in E. destruct E; congruence.
Qed.

End SplitFacts.

(* ================================================================== *)
(** ** More on the echo scrubber *)

Module ScrubMore.
Import Str StrFacts SplitFacts Wire Reply SerialAdapterWithEcho.

Lemma strip_prompt_eq s : strip_prompt s = replace_from prompt "" 0 s.
Proof. reflexivity. Qed.

(** Removing the prompt from a frame removes it from every segment and
    deletes the closing prompt; the terminations stay. *)
Lemma strip_lines : forall lines,
  replace_from prompt "" 0
    (fold_right (fun line rest => line ++ CRLF ++ rest) prompt lines)
  = fold_right (fun line rest => line ++ CRLF ++ rest) "" (map strip_prompt lines).
Proof.
  induction lines as [|l lines IH]; [reflexivity|].
  cbn [fold_right map].
  change (CRLF ++ ?r)%string with (String CR (String LF r)).
  rewrite (replace_from_boundary prompt "" CR _ eq_refl l 0 (Nat.le_0_l _)).
  cbn [replace_from startswith prompt Ascii.eqb Bool.eqb CR LF andb].
  rewrite IH. reflexivity.
Qed.

Lemma strip_frame cmd lines :
  replace_from prompt "" 0 (frame_text cmd lines)
  = (strip_prompt cmd ++ CRLF ++
     fold_right (fun line rest => line ++ CRLF ++ rest) "" (map strip_prompt lines))%string.
Proof.
  unfold frame_text.
  change (CRLF ++ ?r)%string with (String CR (String LF r)).
  rewrite (replace_from_boundary prompt "" CR _ eq_refl cmd 0 (Nat.le_0_l _)).
  cbn [replace_from startswith prompt Ascii.eqb Bool.eqb CR LF andb].
  rewrite strip_lines. reflexivity.
Qed.

Lemma split_free_lines : forall lines,
  forallb (fun s => negb (contains CRLF s)) lines = true ->
  split_from CRLF 0 (fold_right (fun line rest => line ++ CRLF ++ rest) "" lines)
  = (lines ++ [""])%list.
Proof.
  induction lines as [|l lines IH]; intros H; [reflexivity|].
  cbn [forallb] in H. apply andb_true_iff in H as [Hl Hls].
  apply negb_true_iff in Hl.
  cbn [fold_right]. rewrite (split_from_segment l _ Hl), (IH Hls). reflexivity.
Qed.

Lemma forallb_one_segment lines :
  forallb one_segment lines = true ->
  forallb (fun s => negb (contains CRLF s)) (map strip_prompt lines) = true.
Proof.
  induction lines as [|l lines IH]; intros H; [reflexivity|].
  cbn [forallb map] in *. apply andb_true_iff in H as [Hl Hls].
  apply andb_true_iff. split; [exact Hl|exact (IH Hls)].
Qed.

Lemma Forall_drop_first_and_last {A} (P : A -> Prop) (l : list A) :
  Forall P l -> Forall P (drop_first_and_last l).
Proof.
  intros H. unfold drop_first_and_last.
  assert (Hf : forall n (l' : list A), Forall P l' -> Forall P (firstn n l')).
  { induction n as [|n IH]; intros l' Hl'; [constructor|].
    destruct Hl'; cbn [firstn]; constructor; auto. }
  assert (Hs : forall n (l' : list A), Forall P l' -> Forall P (skipn n l')).
  { induction n as [|n IH]; intros l' Hl'; [exact Hl'|].
    destruct Hl'; cbn [skipn]; [constructor|auto]. }
  apply Hs, Hf, H.
Qed.

(** Segments without ['\r\n'], joined with [","], have no ['\r\n']. *)
Lemma join_comma_free : forall parts,
  Forall (fun p => contains CRLF p = false) parts ->
  contains CRLF (join "," parts) = false.
Proof.
  induction parts as [|p parts IH]; intros H; [reflexivity|].
  inversion H as [|? ? Hp Hparts]; subst.
  destruct parts as [|q parts]; [exact Hp|].
  change (join "," (p :: q :: parts))
    with (p ++ String "," (join "," (q :: parts)))%string.
  apply (contains_app_boundary CRLF ","); [reflexivity|exact Hp|].
  cbn [contains startswith CRLF CR LF Ascii.eqb Bool.eqb andb orb].
  apply IH, Hparts.
Qed.

(** What [_read_echo] returns depends on the arrivals only. *)
Lemma read_echo_cases ch :
  _read_echo ch =
  match incoming ch with
  | Frame raw :: rest =>
      (match Codec.decode raw with Ok read => scrub read | Err e => Err e end,
       Channel (sent ch) rest)
  | Silence :: rest => (Err TimeoutError, Channel (sent ch) rest)
  | [] => (Err TimeoutError, ch)
  end.
Proof.
  unfold _read_echo, bind, _read_bytes, lift.
  destruct (incoming ch) as [|[raw|] rest]; try reflexivity.
  destruct (Codec.decode raw); reflexivity.
Qed.

End ScrubMore.

Import Reply.

(** X1.  [_read_echo] never writes, and it takes exactly the next arrival
    off the channel, also when it fails.  It returns exactly when that
    arrival is a frame of well-formed UTF-8; otherwise it raises
    [TimeoutError] (no frame) or [UnicodeDecodeError] (undecodable frame),
    and nothing else. *)
Theorem read_echo_takes_one_arrival :
  forall ch : channel,
    sent (snd (_read_echo ch)) = sent ch
    /\ incoming (snd (_read_echo ch)) = tl (incoming ch)
    /\ (is_ok (fst (_read_echo ch)) = true <->
        exists raw rest,
          incoming ch = Frame raw :: rest /\ Codec.utf8_valid raw = true)
    /\ (forall e, fst (_read_echo ch) = Err e ->
          (e = TimeoutError /\ forall raw rest, incoming ch <> Frame raw :: rest)
          \/ (e = UnicodeDecodeError
              /\ exists raw rest,
                   incoming ch = Frame raw :: rest
                   /\ Codec.utf8_valid raw = false)).
Proof.
  intros ch. rewrite ScrubMore.read_echo_cases.
  destruct ch as [sent0 [|[raw|] rest]]; cbn [incoming sent snd fst tl].
  - repeat split; try discriminate.
    + intros (raw & rest & H & _). discriminate.
    + intros e [= <-]. left. split; [reflexivity|]. intros; discriminate.
  - unfold Codec.decode. destruct (Codec.utf8_valid raw) eqn:V.
    + rewrite ScrubFacts.scrub_eq. repeat split; try discriminate.
      intros _. exists raw, rest. auto.
    + repeat split; try discriminate.
      * intros (raw' & rest' & [= <- <-] & V'). congruence.
      * intros e [= <-]. right. split; [reflexivity|]. exists raw, rest. auto.
  - repeat split; try discriminate.
    + intros (raw & rest' & H & _). discriminate.
    + intros e [= <-]. left. split; [reflexivity|]. intros; discriminate.
Qed.

(** X2.  [ask] writes its command line exactly once, also when the read
    fails, and takes one arrival.  What it returns is what [_read_echo]
    finds in that arrival: the echo is never compared with the command, so
    the result is the same for every command. *)
Theorem ask_writes_once_and_ignores_echo :
  forall (command : string) (ch : channel),
    sent (snd (ask command ch)) = (sent ch ++ [line command])%list
    /\ incoming (snd (ask command ch)) = tl (incoming ch)
    /\ fst (ask command ch) = fst (_read_echo ch)
    /\ forall other, fst (ask other ch) = fst (ask command ch).
Proof.
  intros command ch.
  assert (H : forall c,
             ask c ch
             = (fst (_read_echo ch),
                Channel (sent ch ++ [line c]) (tl (incoming ch)))).
  { intros c. unfold ask, bind, NanoVNA.write, SerialAdapterWithEcho.write,
      wait_for, ret.
    rewrite !ScrubMore.read_echo_cases. cbn [incoming sent].
    destruct (incoming ch) as [|[raw|] rest]; cbn [fst tl]; reflexivity. }
  rewrite (H command). cbn [fst snd sent incoming].
  repeat split. intros other. now rewrite (H other).
Qed.

(** X3.  The prompt marker is removed inside the segments too.  For a
    frame ["<cmd>\r\n<line1>\r\n...<lineN>\r\nch> "] whose command and
    lines have no ["\r\n"] once the prompt is removed from them,
    [_read_echo] returns the lines, each with every ["ch> "] removed, joined
    with [","]. *)
Theorem read_echo_strips_prompt_in_lines :
  forall (cmd : string) (lines : list string) (raw : list byte)
         (sent0 : list string) (rest : list arrival),
    Codec.decode raw = Ok (frame_text cmd lines) ->
    forallb one_segment (cmd :: lines) = true ->
    _read_echo (Channel sent0 (Frame raw :: rest))
    = (Ok (join "," (map strip_prompt lines)), Channel sent0 rest).
Proof.
  intros cmd lines raw sent0 rest Hraw Hseg.
  cbn [forallb] in Hseg. apply andb_true_iff in Hseg as [Hc Hls].
  apply negb_true_iff in Hc. apply ScrubMore.forallb_one_segment in Hls.
  rewrite ScrubFacts.read_echo_frame, Hraw, ScrubFacts.scrub_eq.
  rewrite ScrubMore.strip_frame.
  rewrite (StrFacts.split_from_segment _ _ Hc), (ScrubMore.split_free_lines _ Hls).
  now rewrite ScrubFacts.drop_first_and_last_middle.
Qed.

Lemma read_echo_strips_prompt_in_lines_witness :
  let lines := ["ach> b"; "ch> 1 2"] in
  let raw := list_byte_of_string (frame_text "ch> data 0" lines) in
  Codec.decode raw = Ok (frame_text "ch> data 0" lines)
  /\ forallb one_segment ("ch> data 0" :: lines) = true
  /\ _read_echo (Channel [] [Frame raw]) = (Ok "ab,1 2", Channel [] []).
Proof.
  cbv zeta. split; [reflexivity|]. split; [reflexivity|].
  exact (read_echo_strips_prompt_in_lines "ch> data 0" ["ach> b"; "ch> 1 2"]
           (list_byte_of_string (frame_text "ch> data 0" ["ach> b"; "ch> 1 2"]))
           [] [] eq_refl eq_refl).
Defined.

(** X4.  A reply returned by [_read_echo] never holds the echo termination
    ["\r\n"]: every one of them was a cut of the split, and the join puts
    commas between the segments. *)
Theorem read_echo_reply_has_no_termination :
  forall (ch : channel) (reply : string) (ch' : channel),
    _read_echo ch = (Ok reply, ch') ->
    contains echo_termination reply = false.
Proof.
  intros ch reply ch' H. rewrite ScrubMore.read_echo_cases in H.
  destruct (incoming ch) as [|[raw|] rest]; try discriminate.
  destruct (Codec.decode raw) as [read|e]; [|discriminate].
  rewrite ScrubFacts.scrub_eq in H. injection H as <- _.
  apply ScrubMore.join_comma_free, ScrubMore.Forall_drop_first_and_last.
  apply SplitFacts.split_from_segments_free. discriminate.
Qed.

Lemma read_echo_reply_has_no_termination_witness :
  let raw := list_byte_of_string (frame_text "data 0" ["1.0 2.0"; "3.0 -1.0"]) in
  _read_echo (Channel [] [Frame raw]) = (Ok "1.0 2.0,3.0 -1.0", Channel [] [])
  /\ contains echo_termination "1.0 2.0,3.0 -1.0" = false.
Proof.
  cbv zeta. split; [reflexivity|].
  exact (read_echo_reply_has_no_termination
           (Channel [] [Frame (list_byte_of_string
                                 (frame_text "data 0" ["1.0 2.0"; "3.0 -1.0"]))])
           "1.0 2.0,3.0 -1.0" (Channel [] []) eq_refl).
Defined.

(* ================================================================== *)
(** ** More on decoding *)

Module DecodeMore.
Import Str StrFacts SplitFacts Np NpFacts NanoVNA Reply.

Lemma tokens_spec data :
  split (replace data " " ",") "," = Some (tokens data).
Proof. reflexivity. Qed.

Lemma delimiter_inv d : delimiter d = true -> d = " "%char \/ d = ","%char.
Proof.
  unfold delimiter. intros H. apply orb_true_iff in H as [H|H];
    apply Ascii.eqb_eq in H; auto.
Qed.

Lemma normalize_delimiter d s :
  delimiter d = true ->
  replace_from " " "," 0 (String d s) = String "," (replace_from " " "," 0 s).
Proof. intros H. destruct (delimiter_inv d H) as [-> | ->]; reflexivity. Qed.

(** The tokens of two pieces put together with a delimiter are the tokens
    of the one followed by the tokens of the other. *)
Lemma tokens_app d a b :
  delimiter d = true ->
  tokens (a ++ String d b) = (tokens a ++ tokens b)%list.
Proof.
  intros H. unfold tokens.
  rewrite replace_char_app, (normalize_delimiter d b H).
  apply split_char_app.
Qed.

Lemma tokens_join : forall lines,
  lines <> [] ->
  tokens (join "," lines) = concat (map tokens lines).
Proof.
  induction lines as [|l lines IH]; intros Hne; [congruence|].
  destruct lines as [|l' lines].
  - cbn [join String.concat map concat]. now rewrite app_nil_r.
  - change (join "," (l :: l' :: lines))
      with (l ++ String "," (join "," (l' :: lines)))%string.
    rewrite (tokens_app "," l _ eq_refl), IH by discriminate. reflexivity.
Qed.

Section Arrays.
Variable conv : string -> option float64.

Lemma array_float_app : forall a b,
  array_float conv (a ++ b) =
  match array_float conv a with
  | Err e => Err e
  | Ok xa =>
      match array_float conv b with
      | Err e => Err e
      | Ok xb => Ok (xa ++ xb)%list
      end
  end.
Proof.
  induction a as [|t a IH]; intros b.
  - cbn [app array_float]. now destruct (array_float conv b).
  - cbn [app array_float]. destruct (conv t); [|reflexivity].
    rewrite IH. destruct (array_float conv a); [|reflexivity].
    now destruct (array_float conv b).
Qed.

(** The conversion succeeds exactly when every token is numeric. *)
Lemma array_float_ok_iff tokens :
  is_ok (array_float conv tokens) = true <->
  forall t, In t tokens -> conv t <> None.
Proof.
  split.
  - intros H t Hin Hnone.
    rewrite (array_float_rejects conv tokens) in H; [discriminate|].
    exists t. auto.
  - intros H. destruct (array_float conv tokens) as [xs|e] eqn:E; [reflexivity|].
    apply array_float_err_inv in E. destruct E as [_ (t & Hin & Hnone)].
    now destruct (H t Hin).
Qed.

End Arrays.

Lemma every_other_cons {A} (y : A) (l : list A) :
  every_other (y :: l) = y :: every_other (tl l).
Proof. destruct l; reflexivity. Qed.

Lemma even_length_slices {A} (l : list A) :
  Nat.even (List.length l) = true ->
  List.length (every_other l) = List.length (every_other_from_1 l).
Proof.
  intros H. apply Nat.even_spec in H. destruct H as [m Hm].
  rewrite every_other_length, every_other_from_1_length, Hm.
  now rewrite Nat.div2_succ_double, Nat.div2_double.
Qed.

Lemma every_other_app {A} : forall a b : list A,
  Nat.even (List.length a) = true ->
  every_other (a ++ b) = (every_other a ++ every_other b)%list.
Proof.
  induction a as [| x | x y a IH] using list_ind_by_2; intros b H.
  - reflexivity.
  - discriminate.
  - cbn [app every_other]. f_equal. apply IH. exact H.
Qed.

Lemma every_other_from_1_app {A} : forall a b : list A,
  Nat.even (List.length a) = true ->
  every_other_from_1 (a ++ b)
  = (every_other_from_1 a ++ every_other_from_1 b)%list.
Proof.
  induction a as [| x | x y a IH] using list_ind_by_2; intros b H.
  - reflexivity.
  - discriminate.
  - unfold every_other_from_1 in *. cbn [app tl].
    rewrite !every_other_cons. cbn [app]. f_equal. apply IH. exact H.
Qed.

Lemma zip_with_app {A B C} (f : A -> B -> C) : forall a1 b1 a2 b2,
  List.length a1 = List.length b1 ->
  zip_with f (a1 ++ a2) (b1 ++ b2) = (zip_with f a1 b1 ++ zip_with f a2 b2)%list.
Proof.
  induction a1 as [|x a1 IH]; intros [|y b1] a2 b2 H; simpl in H;
    try discriminate; [reflexivity|].
  cbn [app zip_with]. f_equal. apply IH. lia.
Qed.

Lemma paired_app a b :
  Nat.even (List.length a) = true ->
  paired (a ++ b) = (paired a ++ paired b)%list.
Proof.
  intros H. unfold paired, times_1j.
  rewrite every_other_app, every_other_from_1_app, map_app by exact H.
  apply zip_with_app. rewrite length_map. now apply even_length_slices.
Qed.

(** An operand pair is accepted exactly when the lengths agree or one of
    them is 1. *)
Lemma broadcast_ok_iff {A B C} (f : A -> B -> C) a b :
  is_ok (broadcast f a b) = true <->
  List.length a = List.length b \/ List.length a = 1 \/ List.length b = 1.
Proof.
  unfold broadcast.
  destruct (Nat.eqb (List.length a) (List.length b)) eqn:E.
  - apply Nat.eqb_eq in E. split; auto.
  - apply Nat.eqb_neq in E.
    destruct a as [|x [|x' a]]; destruct b as [|y [|y' b]];
      cbn [is_ok List.length] in *; split; intros H; auto;
      try discriminate; try (destruct H as [H|[H|H]]; lia).
Qed.

Section Decode.
Variable conv : string -> option float64.

Lemma process_data_tokens data :
  _process_data conv data =
  match array_float conv (tokens data) with
  | Err e => Err e
  | Ok xs => add_float_complex (every_other xs) (times_1j (every_other_from_1 xs))
  end.
Proof. reflexivity. Qed.

Lemma add_paired xs :
  Nat.even (List.length xs) = true ->
  add_float_complex (every_other xs) (times_1j (every_other_from_1 xs))
  = Ok (paired xs).
Proof.
  intros H. unfold add_float_complex, paired.
  apply broadcast_same_length. unfold times_1j.
  rewrite length_map. now apply even_length_slices.
Qed.

(** A line that decodes from an even number of tokens: its floats. *)
Lemma line_decodes_inv line result :
  line_decodes conv line result ->
  exists xs, array_float conv (tokens line) = Ok xs
             /\ Nat.even (List.length xs) = true
             /\ paired xs = result.
Proof.
  intros [Heven H]. rewrite process_data_tokens in H.
  destruct (array_float conv (tokens line)) as [xs|e] eqn:E; [|discriminate].
  pose proof (array_float_length conv _ _ E) as Hlen.
  rewrite <- Hlen in Heven. rewrite (add_paired xs Heven) in H.
  injection H as <-. exists xs. auto.
Qed.

Lemma lines_decode : forall lines results,
  Forall2 (line_decodes conv) lines results ->
  exists xs, array_float conv (concat (map tokens lines)) = Ok xs
             /\ Nat.even (List.length xs) = true
             /\ paired xs = concat results.
Proof.
  induction 1 as [|line result lines results Hline _ (xs' & Hxs' & Heven' & Hp')].
  - exists []. repeat split.
  - destruct (line_decodes_inv line result Hline) as (xs & Hxs & Heven & Hp).
    exists (xs ++ xs')%list. cbn [map concat].
    rewrite array_float_app, Hxs, Hxs'. split; [reflexivity|]. split.
    + rewrite length_app, Nat.even_add, Heven, Heven'. reflexivity.
    + now rewrite (paired_app xs xs' Heven), Hp, Hp'.
Qed.

End Decode.

End DecodeMore.

(* ================================================================== *)
(** ** From the frame to the values *)

Module ExchangeFacts.
Import Str Np NanoVNA Reply.

Lemma ask_frame command sent0 raw rest read :
  Codec.decode raw = Ok read ->
  ask command (Channel sent0 (Frame raw :: rest))
  = (scrub read, Channel (sent0 ++ [line command]) rest).
Proof.
  intros H. unfold ask, bind, NanoVNA.write, SerialAdapterWithEcho.write,
    wait_for, ret.
  cbn [sent incoming]. rewrite ScrubFacts.read_echo_frame, H.
  rewrite ScrubFacts.scrub_eq. reflexivity.
Qed.

Lemma scrub_plain_frame cmd lines :
  forallb plain (cmd :: lines) = true ->
  scrub (frame_text cmd lines) = Ok (join "," lines).
Proof.
  intros H. rewrite ScrubFacts.scrub_eq, (ScrubFacts.frame_segments cmd lines H).
  now rewrite ScrubFacts.drop_first_and_last_middle.
Qed.

End ExchangeFacts.

(** X5.  One frequency per line.  When the frame answering
    ["frequencies"] has at least one reply line, its segments hold neither
    ["\r\n"] nor the prompt, no line holds a comma and every line is
    numeric, [get_frequencies] returns the lines converted to floats, in
    order: the split at the commas undoes the join of [_read_echo]. *)
Theorem get_frequencies_one_per_line :
  forall (conv : string -> option float64) (cmd : string)
         (lines : list string) (freqs : list float64) (raw : list byte)
         (sent0 : list string) (rest : list arrival),
    Codec.decode raw = Ok (frame_text cmd lines) ->
    forallb plain (cmd :: lines) = true ->
    lines <> [] ->
    forallb (fun l => negb (contains "," l)) lines = true ->
    map conv lines = map Some freqs ->
    get_frequencies conv (Channel sent0 (Frame raw :: rest))
    = (Ok freqs, Channel (sent0 ++ [line "frequencies"]) rest).
Proof.
  intros conv cmd lines freqs raw sent0 rest Hraw Hplain Hne Hcommas Hnum.
  unfold get_frequencies, bind, lift.
  rewrite (ExchangeFacts.ask_frame _ _ _ _ _ Hraw).
  rewrite (ExchangeFacts.scrub_plain_frame cmd lines Hplain).
  unfold _process_frequencies. cbn [split].
  rewrite (SplitFacts.split_join_char "," lines Hne Hcommas).
  now rewrite (NpFacts.array_float_ok conv lines freqs Hnum).
Qed.

Lemma get_frequencies_one_per_line_witness :
  let lines := ["1000000"; "2000000"; "3000000"] in
  let raw := list_byte_of_string (frame_text "frequencies" lines) in
  let freqs := [S754_finite false 8589934592000000 (-33);
                S754_finite false 8589934592000000 (-32);
                S754_finite false 6442450944000000 (-31)] in
  Codec.decode raw = Ok (frame_text "frequencies" lines)
  /\ forallb plain ("frequencies" :: lines) = true
  /\ lines <> []
  /\ forallb (fun l => negb (contains "," l)) lines = true
  /\ map Literal.float_of_str lines = map Some freqs
  /\ get_frequencies Literal.float_of_str (Channel [] [Frame raw])
     = (Ok freqs, Channel [line "frequencies"] []).
Proof.
  cbv zeta.
  assert (Hne : ["1000000"; "2000000"; "3000000"] <> @nil string)
    by (intros E; discriminate E).
  split; [reflexivity|]. split; [reflexivity|]. split; [exact Hne|].
  split; [reflexivity|]. split; [reflexivity|].
  exact (get_frequencies_one_per_line Literal.float_of_str "frequencies"
           ["1000000"; "2000000"; "3000000"]
           [S754_finite false 8589934592000000 (-33);
            S754_finite false 8589934592000000 (-32);
            S754_finite false 6442450944000000 (-31)]
           (list_byte_of_string
              (frame_text "frequencies" ["1000000"; "2000000"; "3000000"]))
           [] [] eq_refl eq_refl Hne eq_refl eq_refl).
Defined.

(** X6.  [_process_data] returns exactly when every token is numeric and
    the number of tokens is even, 1 or 3: with 1 or 3 tokens the slices
    [[::2]] and [[1::2]] still broadcast, from 5 on an odd count is
    refused. *)
Theorem process_data_returns_iff :
  forall (conv : string -> option float64) (data : string),
    is_ok (_process_data conv data) = true <->
    (forall tok, In tok (tokens data) -> conv tok <> None)
    /\ (Nat.even (List.length (tokens data)) = true
        \/ List.length (tokens data) = 1
        \/ List.length (tokens data) = 3).
Proof.
  intros conv data. rewrite DecodeMore.process_data_tokens.
  rewrite <- (DecodeMore.array_float_ok_iff conv (tokens data)).
  destruct (array_float conv (tokens data)) as [xs|e] eqn:E.
  - apply NpFacts.array_float_length in E. rewrite <- E.
    unfold add_float_complex. rewrite DecodeMore.broadcast_ok_iff.
    unfold times_1j.
    rewrite length_map, NpFacts.every_other_length,
      NpFacts.every_other_from_1_length.
    cbn [is_ok].
    destruct (Nat.Even_or_Odd (List.length xs)) as [[m Hm]|[m Hm]]; rewrite Hm.
    + rewrite Nat.div2_succ_double, Nat.div2_double.
      split; [intros _|auto]. split; [reflexivity|]. left.
      apply Nat.even_spec. now exists m.
    + assert (D1 : Nat.div2 (S (2 * m + 1)) = S m).
      { replace (S (2 * m + 1)) with (2 * S m) by lia. apply Nat.div2_double. }
      assert (D2 : Nat.div2 (2 * m + 1) = m).
      { replace (2 * m + 1) with (S (2 * m)) by lia. apply Nat.div2_succ_double. }
      rewrite D1, D2.
      replace (Nat.even (2 * m + 1)) with false
        by (symmetry; rewrite Nat.add_1_r, Nat.even_succ, <- Nat.negb_even,
            Nat.even_mul; reflexivity).
      split.
      * intros H. split; [reflexivity|]. right. lia.
      * intros [_ [H|H]]; [discriminate|lia].
  - cbn [is_ok]. split; [discriminate|]. intros [H _]. discriminate.
Qed.

(** X7.  Decoding line by line.  When each line decodes on its own, from
    an even number of tokens, the lines joined with commas (as
    [_read_echo] returns them) decode to the values of the first line,
    followed by those of the second, and so on. *)
Theorem process_data_of_joined_lines :
  forall (conv : string -> option float64) (lines : list string)
         (results : list (list complex128)),
    lines <> [] ->
    Forall2 (line_decodes conv) lines results ->
    _process_data conv (join "," lines) = Ok (concat results).
Proof.
  intros conv lines results Hne Hlines.
  destruct (DecodeMore.lines_decode conv lines results Hlines)
    as (xs & Hxs & Heven & Hp).
  rewrite DecodeMore.process_data_tokens, (DecodeMore.tokens_join lines Hne), Hxs.
  now rewrite (DecodeMore.add_paired xs Heven), Hp.
Qed.

Lemma process_data_of_joined_lines_witness :
  let one := S754_finite false 4503599627370496 (-52) in
  let two := S754_finite false 4503599627370496 (-51) in
  let three := S754_finite false 6755399441055744 (-51) in
  let minus_one := S754_finite true 4503599627370496 (-52) in
  let lines := ["1.0 2.0"; "3.0 -1.0"] in
  let results := [[Complex one two]; [Complex three minus_one]] in
  lines <> []
  /\ Forall2 (line_decodes Literal.float_of_str) lines results
  /\ _process_data Literal.float_of_str "1.0 2.0,3.0 -1.0"
     = Ok [Complex one two; Complex three minus_one].
Proof.
  cbv zeta.
  assert (Hne : ["1.0 2.0"; "3.0 -1.0"] <> @nil string)
    by (intros E; discriminate E).
  assert (Hl : Forall2 (line_decodes Literal.float_of_str)
                 ["1.0 2.0"; "3.0 -1.0"]
                 [[Complex (S754_finite false 4503599627370496 (-52))
                           (S754_finite false 4503599627370496 (-51))];
                  [Complex (S754_finite false 6755399441055744 (-51))
                           (S754_finite true 4503599627370496 (-52))]]).
  { repeat constructor. }
  split; [exact Hne|]. split; [exact Hl|].
  exact (process_data_of_joined_lines Literal.float_of_str _ _ Hne Hl).
Defined.

(** X8.  One exchange, from the frame to the values.  When the frame has
    at least one reply line, its segments hold neither ["\r\n"] nor the
    prompt, and each line decodes on its own from an even number of tokens,
    [get_S11_data] and [get_S21_data] write their command, take the frame
    and return the values of the lines in order.  The echoed command is
    not looked at. *)
Theorem get_S_data_line_by_line :
  forall (conv : string -> option float64) (cmd : string)
         (lines : list string) (results : list (list complex128))
         (raw : list byte) (sent0 : list string) (rest : list arrival),
    Codec.decode raw = Ok (frame_text cmd lines) ->
    forallb plain (cmd :: lines) = true ->
    lines <> [] ->
    Forall2 (line_decodes conv) lines results ->
    get_S11_data conv (Channel sent0 (Frame raw :: rest))
    = (Ok (concat results), Channel (sent0 ++ [line "data 0"]) rest)
    /\ get_S21_data conv (Channel sent0 (Frame raw :: rest))
       = (Ok (concat results), Channel (sent0 ++ [line "data 1"]) rest).
Proof.
  intros conv cmd lines results raw sent0 rest Hraw Hplain Hne Hlines.
  destruct (DecodeMore.lines_decode conv lines results Hlines)
    as (xs & Hxs & Heven & Hp).
  assert (Hd : _process_data conv (join "," lines) = Ok (concat results)).
  { rewrite DecodeMore.process_data_tokens, (DecodeMore.tokens_join lines Hne), Hxs.
    now rewrite (DecodeMore.add_paired xs Heven), Hp. }
  unfold get_S11_data, get_S21_data, bind, lift.
  rewrite !(ExchangeFacts.ask_frame _ _ _ _ _ Hraw).
  rewrite (ExchangeFacts.scrub_plain_frame cmd lines Hplain), Hd.
  split; reflexivity.
Qed.

Lemma get_S_data_line_by_line_witness :
  let one := S754_finite false 4503599627370496 (-52) in
  let two := S754_finite false 4503599627370496 (-51) in
  let three := S754_finite false 6755399441055744 (-51) in
  let minus_one := S754_finite true 4503599627370496 (-52) in
  let lines := ["1.0 2.0"; "3.0 -1.0"] in
  let results := [[Complex one two]; [Complex three minus_one]] in
  let raw := list_byte_of_string (frame_text "data 0" lines) in
  Codec.decode raw = Ok (frame_text "data 0" lines)
  /\ forallb plain ("data 0" :: lines) = true
  /\ lines <> []
  /\ Forall2 (line_decodes Literal.float_of_str) lines results
  /\ get_S11_data Literal.float_of_str (Channel [] [Frame raw])
     = (Ok [Complex one two; Complex three minus_one],
        Channel [line "data 0"] []).
Proof.
  cbv zeta.
  assert (Hne : ["1.0 2.0"; "3.0 -1.0"] <> @nil string)
    by (intros E; discriminate E).
  assert (Hl : Forall2 (line_decodes Literal.float_of_str)
                 ["1.0 2.0"; "3.0 -1.0"]
                 [[Complex (S754_finite false 4503599627370496 (-52))
                           (S754_finite false 4503599627370496 (-51))];
                  [Complex (S754_finite false 6755399441055744 (-51))
                           (S754_finite true 4503599627370496 (-52))]]).
  { repeat constructor. }
  split; [reflexivity|]. split; [reflexivity|]. split; [exact Hne|].
  split; [exact Hl|].
  exact (proj1 (get_S_data_line_by_line Literal.float_of_str "data 0"
                  ["1.0 2.0"; "3.0 -1.0"] _
                  (list_byte_of_string
                     (frame_text "data 0" ["1.0 2.0"; "3.0 -1.0"]))
                  [] [] eq_refl eq_refl Hne Hl)).
Defined.

(** X9.  [_process_frequencies] returns one float per comma-separated
    field: when it returns, the sequence has one element more than the
    reply has commas, so it is never empty. *)
Theorem process_frequencies_length :
  forall (conv : string -> option float64) (freqs : string)
         (result : list float64),
    _process_frequencies conv freqs = Ok result ->
    List.length result = S (count "," freqs) /\ result <> [].
Proof.
  intros conv freqs result H. unfold _process_frequencies in H. cbn [split] in H.
  apply NpFacts.array_float_length in H.
  rewrite (SplitFacts.split_char_length "," freqs) in H.
  split; [exact H|]. intros ->. discriminate.
Qed.

Lemma process_frequencies_length_witness :
  let result := [S754_finite false 8589934592000000 (-33);
                 S754_finite false 8589934592000000 (-32);
                 S754_finite false 6442450944000000 (-31)] in
  _process_frequencies Literal.float_of_str "1000000,2000000,3000000" = Ok result
  /\ List.length result = S (count "," "1000000,2000000,3000000")
  /\ result <> [].
Proof.
  cbv zeta. split; [reflexivity|].
  exact (process_frequencies_length Literal.float_of_str
           "1000000,2000000,3000000"
           [S754_finite false 8589934592000000 (-33);
            S754_finite false 8589934592000000 (-32);
            S754_finite false 6442450944000000 (-31)] eq_refl).
Defined.

(** X10.  A frame without reply text.  When the frame has no reply line,
    or a single empty one, the scrubbed reply is [""]; its only token is
    the empty string, and [get_frequencies], [get_S11_data] and
    [get_S21_data] raise [ValueError] (given that the empty string is no
    number) instead of returning an empty sequence.  The command has been
    written and the frame is taken. *)
Theorem getters_fail_on_empty_reply :
  forall (conv : string -> option float64) (cmd : string)
         (lines : list string) (raw : list byte)
         (sent0 : list string) (rest : list arrival),
    conv "" = None ->
    Codec.decode raw = Ok (frame_text cmd lines) ->
    plain cmd = true ->
    lines = [] \/ lines = [""] ->
    get_frequencies conv (Channel sent0 (Frame raw :: rest))
    = (Err ValueError, Channel (sent0 ++ [line "frequencies"]) rest)
    /\ get_S11_data conv (Channel sent0 (Frame raw :: rest))
       = (Err ValueError, Channel (sent0 ++ [line "data 0"]) rest)
    /\ get_S21_data conv (Channel sent0 (Frame raw :: rest))
       = (Err ValueError, Channel (sent0 ++ [line "data 1"]) rest).
Proof.
  intros conv cmd lines raw sent0 rest Hempty Hraw Hcmd Hlines.
  assert (Hscrub : scrub (frame_text cmd lines) = Ok "").
  { rewrite ExchangeFacts.scrub_plain_frame.
    - destruct Hlines as [-> | ->]; reflexivity.
    - cbn [forallb]. rewrite Hcmd. destruct Hlines as [-> | ->]; reflexivity. }
  unfold get_frequencies, get_S11_data, get_S21_data, bind, lift.
  rewrite !(ExchangeFacts.ask_frame _ _ _ _ _ Hraw), Hscrub.
  unfold _process_frequencies, _process_data.
  cbn [split replace replace_from split_from array_float]. rewrite Hempty.
  repeat split.
Qed.

Lemma getters_fail_on_empty_reply_witness :
  let raw := list_byte_of_string (frame_text "pause" []) in
  Literal.float_of_str "" = None
  /\ Codec.decode raw = Ok (frame_text "pause" [])
  /\ plain "pause" = true
  /\ get_S11_data Literal.float_of_str (Channel [] [Frame raw])
     = (Err ValueError, Channel [line "data 0"] []).
Proof.
  cbv zeta. split; [reflexivity|]. split; [reflexivity|]. split; [reflexivity|].
  exact (proj1 (proj2 (getters_fail_on_empty_reply Literal.float_of_str "pause" []
                         (list_byte_of_string (frame_text "pause" []))
                         [] [] eq_refl eq_refl eq_refl (or_introl eq_refl)))).
Defined.

(** X11.  An empty field is fatal.  Given that the empty string is no
    number, [_process_data] raises [ValueError] for a reply with two
    delimiters in a row (a doubled space, a comma followed by a space...),
    for a reply that begins with a delimiter and for one that ends with a
    delimiter. *)
Theorem process_data_rejects_empty_field :
  forall (conv : string -> option float64) (a b : string) (d1 d2 : ascii),
    conv "" = None ->
    delimiter d1 = true ->
    delimiter d2 = true ->
    _process_data conv (a ++ String d1 (String d2 b)) = Err ValueError
    /\ _process_data conv (String d1 b) = Err ValueError
    /\ _process_data conv (a ++ String d1 "") = Err ValueError.
Proof.
  intros conv a b d1 d2 Hempty H1 H2.
  assert (Hrej : forall data, In "" (tokens data) ->
                              _process_data conv data = Err ValueError).
  { intros data Hin. rewrite DecodeMore.process_data_tokens.
    rewrite (NpFacts.array_float_rejects conv (tokens data)); [reflexivity|].
    exists "". auto. }
  assert (Hlead : forall s, In "" (tokens (String d1 s))).
  { intros s. change (String d1 s) with ("" ++ String d1 s)%string.
    rewrite (DecodeMore.tokens_app d1 "" s H1). left. reflexivity. }
  repeat split; apply Hrej.
  - rewrite (DecodeMore.tokens_app d1 a _ H1). apply in_or_app. right.
    change (String d2 b) with ("" ++ String d2 b)%string.
    rewrite (DecodeMore.tokens_app d2 "" b H2). left. reflexivity.
  - apply Hlead.
  - rewrite (DecodeMore.tokens_app d1 a "" H1). apply in_or_app. right.
    left. reflexivity.
Qed.

Lemma process_data_rejects_empty_field_witness :
  Literal.float_of_str "" = None
  /\ delimiter " " = true
  /\ _process_data Literal.float_of_str "1.0  2.0" = Err ValueError
  /\ _process_data Literal.float_of_str " 2.0" = Err ValueError
  /\ _process_data Literal.float_of_str "1.0 2.0," = Err ValueError.
Proof.
  split; [reflexivity|]. split; [reflexivity|].
  split; [|split].
  - exact (proj1 (process_data_rejects_empty_field Literal.float_of_str
                    "1.0" "2.0" " " " " eq_refl eq_refl eq_refl)).
  - exact (proj1 (proj2 (process_data_rejects_empty_field Literal.float_of_str
                           "" "2.0" " " " " eq_refl eq_refl eq_refl))).
  - exact (proj2 (proj2 (process_data_rejects_empty_field Literal.float_of_str
                           "1.0 2.0" "" "," "," eq_refl eq_refl eq_refl))).
Defined.

(* ================================================================== *)
(** ** Requests and replies stay paired *)

Module PairingFacts.
Import Np NanoVNA.

Section Pairing.
Variable conv : string -> option float64.

Lemma request_step command ch :
  sent (snd (request conv command ch)) = (sent ch ++ [line command])%list
  /\ incoming (snd (request conv command ch)) = tl (incoming ch).
Proof.
  split; [apply RequestFacts.request_sent|].
  unfold request, ask, bind, NanoVNA.write, SerialAdapterWithEcho.write,
    wait_for, ret, lift.
  rewrite ScrubMore.read_echo_cases. cbn [incoming sent].
  destruct (incoming ch) as [|[raw|] rest]; cbn [snd incoming tl]; try reflexivity.
  destruct (Codec.decode raw) as [read|e]; [|reflexivity].
  rewrite ScrubFacts.scrub_eq. reflexivity.
Qed.

Lemma tl_skipn {A} n (l : list A) : skipn n (tl l) = skipn (S n) l.
Proof. destruct l; [now destruct n|reflexivity]. Qed.

Lemma requests_paired : forall commands ch,
  exists n,
    n <= List.length commands
    /\ sent (snd (requests conv commands ch))
       = (sent ch ++ firstn n (map line commands))%list
    /\ incoming (snd (requests conv commands ch)) = skipn n (incoming ch)
    /\ (is_ok (fst (requests conv commands ch)) = true
        -> n = List.length commands).
Proof.
  induction commands as [|c commands IH]; intros ch.
  - exists 0. cbn. rewrite app_nil_r. auto.
  - cbn [requests]. unfold bind, ret.
    destruct (request_step c ch) as [Hs Hi].
    destruct (request conv c ch) as [[v|e] ch1]; cbn [snd] in Hs, Hi.
    + destruct (IH ch1) as (n & Hn & Hsent & Hinc & Hok).
      exists (S n).
      destruct (requests conv commands ch1) as [[vs|e] ch2];
        cbn [snd fst is_ok List.length map firstn] in *;
        rewrite Hsent, Hs, <- app_assoc, Hinc, Hi, tl_skipn;
        (split; [lia|split; [reflexivity|split; [reflexivity|]]]).
      * intros _. now rewrite Hok.
      * discriminate.
    + exists 1. cbn [snd fst is_ok List.length map firstn].
      split; [lia|split; [exact Hs|split; [|discriminate]]].
      rewrite Hi. now destruct (incoming ch).
Qed.

End Pairing.

End PairingFacts.

(** X12.  [get_cals] keeps requests and replies paired: it takes one
    arrival off the channel for each command line it wrote, whether it
    returns (5 of each) or stops at a failed request (as many as were
    issued); what the device sent after that is left on the channel. *)
Theorem get_cals_takes_one_arrival_per_request :
  forall (conv : string -> option float64) (ch : channel),
    exists n,
      n <= 5
      /\ sent (snd (get_cals conv ch))
         = (sent ch ++ firstn n (map line cal_commands))%list
      /\ incoming (snd (get_cals conv ch)) = skipn n (incoming ch)
      /\ (is_ok (fst (get_cals conv ch)) = true -> n = 5).
Proof.
  intros conv ch. rewrite RequestFacts.get_cals_as_requests. unfold bind, ret.
  destruct (PairingFacts.requests_paired conv cal_commands ch)
    as (n & Hn & Hsent & Hinc & Hok).
  exists n. cbn [List.length cal_commands] in Hn, Hok.
  destruct (requests conv cal_commands ch) as [[values|e] ch1];
    cbn [snd fst is_ok] in *; auto.
Qed.
